(** * certauth: a file-backed certificate authority

    Shallow embedding of [certauth.py].  The module keeps a self-signed
    root certificate in one PEM file and issues, per host name, a leaf
    certificate signed by that root, cached as one PEM file per host.

    The Python code is translated function by function into a state and
    exception monad over a [World] (file system, clock, the [random]
    module's generator, OpenSSL's entropy pool).  What the module imports
    ([os], [open], [random], [OpenSSL.crypto]) is an interface, [Platform];
    the facts about it that a proof needs are stated one by one as section
    hypotheses, and a small reference platform shows they can be met.
    [main] is modelled from the parsed arguments on; the argument parser
    itself is not. *)

From Stdlib Require Import ZArith List Bool Ascii String Lia.
From stdpp Require Import base strings.

Local Open Scope string_scope.
Local Open Scope list_scope.
Local Open Scope Z_scope.

(** ** Module-level constants *)

(** Duration of 100 years *)
Definition CERT_DURATION : Z := 100 * 365 * 24 * 60 * 60.

Definition CERTS_DIR : string := "./pywb-certs/".

Definition CERT_NAME : string := "pywb https proxy replay CA".

Definition CERT_CA_FILE : string := "./pywb-ca.pem".

(** ** Python values *)

(** An argument that is [None] or a [str]. *)
Definition py_truth (x : option string) : bool :=
  match x with
  | None => false
  | Some s => negb (String.eqb s "")
  end.

(** [if not x: x = d], then [x] as a [str]. *)
Definition py_default (x : option string) (d : string) : string :=
  match x with
  | Some s => if negb (py_truth x) then d else s
  | None => d
  end.

(** ['%s.pem' % host] *)
Definition pem_name (host : string) : string := host +:+ ".pem".

(** [os.path.sep] (POSIX) *)
Definition os_path_sep : string := "/".

(** [sep.join(parts)] *)
Fixpoint str_join (sep : string) (parts : list string) : string :=
  match parts with
  | [] => ""
  | [p] => p
  | p :: rest => p +:+ sep +:+ str_join sep rest
  end.

(** ** OpenSSL objects, as the fields this module touches *)

Inductive key_type := TYPE_RSA | TYPE_DSA.

Record X509Name := { CN : option string }.

Definition X509Name_new : X509Name := {| CN := None |}.

Record X509Extension {PubKey : Type} := {
  ext_name : string;
  ext_critical : bool;
  ext_value : string;
  (* public key of the [subject=] certificate when the extension was built *)
  ext_subject_key : option PubKey;
}.
Arguments X509Extension : clear implicits.

Record X509 {PubKey Bytes : Type} := {
  x_version : Z;
  x_serial : Z;
  x_subject : X509Name;
  x_issuer : X509Name;
  x_notBefore : option Z;
  x_notAfter : option Z;
  x_pubkey : option PubKey;
  x_extensions : list (X509Extension PubKey);
  (* digest name and signature value *)
  x_signature : option (string * Bytes);
}.
Arguments X509 : clear implicits.

(** The version field is zero-based, as [X509_set_version] stores it and
    as it is encoded: 0 is X.509 v1, 1 is v2, 2 is v3; X.509 defines no
    other version. *)
Inductive X509_Version := X509_v1 | X509_v2 | X509_v3.

Definition version_of_field (n : Z) : option X509_Version :=
  if Z.eqb n 0 then Some X509_v1
  else if Z.eqb n 1 then Some X509_v2
  else if Z.eqb n 2 then Some X509_v3
  else None.

Record X509Req {PubKey Bytes : Type} := {
  r_subject : X509Name;
  r_pubkey : option PubKey;
  r_signature : option (string * Bytes);
}.
Arguments X509Req : clear implicits.

(** ** What the module imports *)

Class Platform := {
  (* byte strings: what OpenSSL dumps and files hold *)
  Bytes : Type;
  bytes_empty : Bytes;
  bytes_app : Bytes -> Bytes -> Bytes;

  (* os, open *)
  FS : Type;
  path_exists : FS -> string -> bool;          (* os.path.exists(p) *)
  fs_open_r : FS -> string -> option Bytes;    (* open(p, 'r'): the content *)
  fs_open_w : FS -> string -> option FS;       (* open(p, 'wb+'): create or truncate *)
  fs_append : FS -> string -> Bytes -> FS;     (* f.write(b) at the end of p *)
  (* f.write(b) that fails (no space left, an I/O error): what is left on disk *)
  fs_write_fails : FS -> string -> Bytes -> option FS;
  fs_mkdir : FS -> string -> option FS;        (* os.mkdir(p) *)
  Clock : Type;
  clock_time : Clock -> Z * Clock;             (* time(NULL) *)

  (* random *)
  RandState : Type;
  randint : Z -> Z -> RandState -> Z * RandState;

  (* OpenSSL.crypto *)
  PKey : Type;
  PubKey : Type;
  Entropy : Type;
  pkey_public : PKey -> PubKey;
  pkey_bits : PKey -> Z;
  pkey_generate : key_type -> Z -> Entropy -> option PKey * Entropy;
  name_entry_ok : string -> bool;              (* X509_NAME_add_entry_by_NID accepts *)
  tbs_certificate : X509 PubKey Bytes -> Bytes;
  tbs_request : X509Req PubKey Bytes -> Bytes;
  pkey_sign : PKey -> string -> Bytes -> option Bytes;
  pkey_verify : PubKey -> string -> Bytes -> Bytes -> bool;
  dump_privatekey : PKey -> Bytes;             (* FILETYPE_PEM *)
  dump_certificate : X509 PubKey Bytes -> Bytes;
  load_privatekey : Bytes -> option PKey;
  load_certificate : Bytes -> option (X509 PubKey Bytes);
}.

Abbreviation Cert := (X509 PubKey Bytes).
Abbreviation Req := (X509Req PubKey Bytes).
Abbreviation Ext := (X509Extension PubKey).

(** ** Calls, exceptions, outcomes *)

(** The calls into [os], [random] and OpenSSL that the model records. *)
Inductive Event :=
| ev_path_exists (p : string)
| ev_open (p : string) (mode : string)
| ev_write (p : string)
| ev_mkdir (p : string)
| ev_randint (lo hi : Z)
| ev_generate_key (t : key_type) (bits : Z)
| ev_sign (digest : string)
| ev_load_certificate
| ev_load_privatekey.

Inductive exn := IOError | OSError | crypto_Error.

Inductive outcome (A : Type) :=
| Val (a : A)
| Exn (e : exn).
Arguments Val {A} a.
Arguments Exn {A} e.

Section Model.
Context {P : Platform}.

(** ** The world and the monad *)

Record World := {
  w_fs : FS;
  w_clock : Clock;
  w_random : RandState;
  w_entropy : Entropy;
  (* ghost: the calls made so far, oldest first *)
  w_trace : list Event;
}.

Definition log (e : Event) (w : World) : World :=
  {| w_fs := w_fs w; w_clock := w_clock w; w_random := w_random w;
     w_entropy := w_entropy w; w_trace := w_trace w ++ [e] |}.

Definition with_fs (fs : FS) (w : World) : World :=
  {| w_fs := fs; w_clock := w_clock w; w_random := w_random w;
     w_entropy := w_entropy w; w_trace := w_trace w |}.

Definition with_clock (c : Clock) (w : World) : World :=
  {| w_fs := w_fs w; w_clock := c; w_random := w_random w;
     w_entropy := w_entropy w; w_trace := w_trace w |}.

Definition with_random (r : RandState) (w : World) : World :=
  {| w_fs := w_fs w; w_clock := w_clock w; w_random := r;
     w_entropy := w_entropy w; w_trace := w_trace w |}.

Definition with_entropy (e : Entropy) (w : World) : World :=
  {| w_fs := w_fs w; w_clock := w_clock w; w_random := w_random w;
     w_entropy := e; w_trace := w_trace w |}.

Definition Py (A : Type) : Type := World -> outcome A * World.

Definition ret {A} (a : A) : Py A := fun w => (Val a, w).

Definition raise {A} (e : exn) : Py A := fun w => (Exn e, w).

Definition bind {A B} (m : Py A) (k : A -> Py B) : Py B :=
  fun w =>
    match m w with
    | (Val a, w') => k a w'
    | (Exn e, w') => (Exn e, w')
    end.

Definition of_option {A} (o : option A) (e : exn) : Py A :=
  match o with
  | Some a => ret a
  | None => raise e
  end.

Definition emit (e : Event) : Py unit := fun w => (Val tt, log e w).

End Model.

Declare Scope py_scope.
Delimit Scope py_scope with py.
Notation "x <- m ;; k" := (bind m (fun x => k))
  (at level 20, m at level 99, k at level 200, only parsing) : py_scope.
Notation "m ;; k" := (bind m (fun _ => k))
  (at level 100, k at level 200, right associativity, only parsing) : py_scope.
Notation "' pat <- m ;; k" := (bind m (fun x => match x with pat => k end))
  (at level 20, pat pattern, m at level 99, k at level 200, only parsing) : py_scope.

Section Code.
Context {P : Platform}.
Local Open Scope py_scope.

(** ** [os] and file objects *)

Definition os_path_exists (p : string) : Py bool :=
  emit (ev_path_exists p) ;;
  fun w => (Val (path_exists (w_fs w) p), w).

Definition os_mkdir (p : string) : Py unit :=
  emit (ev_mkdir p) ;;
  fun w =>
    match fs_mkdir (w_fs w) p with
    | Some fs' => (Val tt, with_fs fs' w)
    | None => (Exn OSError, w)
    end.

(** A file opened for reading: its content and whether the position is
    at the end.  The module only reads whole files and seeks to 0. *)
Record PyFile := {
  f_data : Bytes;
  f_eof : bool;
}.

(** [open(filename, 'r')] *)
Definition open_r (filename : string) : Py PyFile :=
  emit (ev_open filename "r") ;;
  fun w =>
    match fs_open_r (w_fs w) filename with
    | Some d => (Val {| f_data := d; f_eof := false |}, w)
    | None => (Exn IOError, w)
    end.

(** [f.read()]: from the position to the end. *)
Definition file_read (f : PyFile) : Bytes * PyFile :=
  (if f_eof f then bytes_empty else f_data f,
   {| f_data := f_data f; f_eof := true |}).

(** [f.seek(0)] *)
Definition file_seek0 (f : PyFile) : PyFile :=
  {| f_data := f_data f; f_eof := false |}.

(** [open(filename, 'wb+')]: the handle is the path written to. *)
Definition open_w (filename : string) : Py string :=
  emit (ev_open filename "wb+") ;;
  fun w =>
    match fs_open_w (w_fs w) filename with
    | Some fs' => (Val filename, with_fs fs' w)
    | None => (Exn IOError, w)
    end.

(** [f.write(b)], the flush of [b] when the [with] block closes [f]
    counted in.  It adds [b] at the end of the file, or it fails: then
    [IOError] is raised and the disk holds what the platform says. *)
Definition file_write (f : string) (b : Bytes) : Py unit :=
  emit (ev_write f) ;;
  fun w =>
    match fs_write_fails (w_fs w) f b with
    | Some fs' => (Exn IOError, with_fs fs' w)
    | None => (Val tt, with_fs (fs_append (w_fs w) f b) w)
    end.

(** ** [random] *)

(** [random.randint(lo, hi)] *)
Definition random_randint (lo hi : Z) : Py Z :=
  emit (ev_randint lo hi) ;;
  fun w =>
    let '(n, r') := randint lo hi (w_random w) in
    (Val n, with_random r' w).

(** ** [OpenSSL.crypto] *)

(** [key = crypto.PKey(); key.generate_key(t, bits)] *)
Definition PKey_generate_key (t : key_type) (bits : Z) : Py PKey :=
  emit (ev_generate_key t bits) ;;
  fun w =>
    let '(k, e') := pkey_generate t bits (w_entropy w) in
    of_option k crypto_Error (with_entropy e' w).

(** [name.CN = value] *)
Definition X509Name_set_CN (n : X509Name) (value : string) : Py X509Name :=
  if name_entry_ok value then ret {| CN := Some value |} else raise crypto_Error.

(** [crypto.X509()] *)
Definition X509_new : Cert :=
  {| x_version := 0; x_serial := 0;
     x_subject := X509Name_new; x_issuer := X509Name_new;
     x_notBefore := None; x_notAfter := None; x_pubkey := None;
     x_extensions := []; x_signature := None |}.

(** [cert.set_version(v)]: [v] becomes the version field as it is. *)
Definition set_version (c : Cert) (v : Z) : Cert :=
  {| x_version := v; x_serial := x_serial c;
     x_subject := x_subject c; x_issuer := x_issuer c;
     x_notBefore := x_notBefore c; x_notAfter := x_notAfter c;
     x_pubkey := x_pubkey c; x_extensions := x_extensions c;
     x_signature := x_signature c |}.

Definition set_serial_number (c : Cert) (n : Z) : Cert :=
  {| x_version := x_version c; x_serial := n;
     x_subject := x_subject c; x_issuer := x_issuer c;
     x_notBefore := x_notBefore c; x_notAfter := x_notAfter c;
     x_pubkey := x_pubkey c; x_extensions := x_extensions c;
     x_signature := x_signature c |}.

Definition get_subject (c : Cert) : X509Name := x_subject c.

Definition set_subject (c : Cert) (n : X509Name) : Cert :=
  {| x_version := x_version c; x_serial := x_serial c;
     x_subject := n; x_issuer := x_issuer c;
     x_notBefore := x_notBefore c; x_notAfter := x_notAfter c;
     x_pubkey := x_pubkey c; x_extensions := x_extensions c;
     x_signature := x_signature c |}.

Definition set_issuer (c : Cert) (n : X509Name) : Cert :=
  {| x_version := x_version c; x_serial := x_serial c;
     x_subject := x_subject c; x_issuer := n;
     x_notBefore := x_notBefore c; x_notAfter := x_notAfter c;
     x_pubkey := x_pubkey c; x_extensions := x_extensions c;
     x_signature := x_signature c |}.

Definition set_notBefore (c : Cert) (t : Z) : Cert :=
  {| x_version := x_version c; x_serial := x_serial c;
     x_subject := x_subject c; x_issuer := x_issuer c;
     x_notBefore := Some t; x_notAfter := x_notAfter c;
     x_pubkey := x_pubkey c; x_extensions := x_extensions c;
     x_signature := x_signature c |}.

Definition set_notAfter (c : Cert) (t : Z) : Cert :=
  {| x_version := x_version c; x_serial := x_serial c;
     x_subject := x_subject c; x_issuer := x_issuer c;
     x_notBefore := x_notBefore c; x_notAfter := Some t;
     x_pubkey := x_pubkey c; x_extensions := x_extensions c;
     x_signature := x_signature c |}.

(** [cert.set_pubkey(pkey)] keeps the public half of [pkey]. *)
Definition set_pubkey (c : Cert) (k : PubKey) : Cert :=
  {| x_version := x_version c; x_serial := x_serial c;
     x_subject := x_subject c; x_issuer := x_issuer c;
     x_notBefore := x_notBefore c; x_notAfter := x_notAfter c;
     x_pubkey := Some k; x_extensions := x_extensions c;
     x_signature := x_signature c |}.

Definition add_extensions (c : Cert) (exts : list Ext) : Cert :=
  {| x_version := x_version c; x_serial := x_serial c;
     x_subject := x_subject c; x_issuer := x_issuer c;
     x_notBefore := x_notBefore c; x_notAfter := x_notAfter c;
     x_pubkey := x_pubkey c; x_extensions := x_extensions c ++ exts;
     x_signature := x_signature c |}.

Definition set_signature (c : Cert) (s : option (string * Bytes)) : Cert :=
  {| x_version := x_version c; x_serial := x_serial c;
     x_subject := x_subject c; x_issuer := x_issuer c;
     x_notBefore := x_notBefore c; x_notAfter := x_notAfter c;
     x_pubkey := x_pubkey c; x_extensions := x_extensions c;
     x_signature := s |}.

(** [cert.get_subject().CN = value] *)
Definition subject_set_CN (c : Cert) (value : string) : Py Cert :=
  n <- X509Name_set_CN (get_subject c) value ;;
  ret (set_subject c n).

(** [cert.gmtime_adj_notBefore(amount)] *)
Definition gmtime_adj_notBefore (c : Cert) (amount : Z) : Py Cert :=
  fun w =>
    let '(now, ck) := clock_time (w_clock w) in
    (Val (set_notBefore c (now + amount)), with_clock ck w).

(** [cert.gmtime_adj_notAfter(amount)] *)
Definition gmtime_adj_notAfter (c : Cert) (amount : Z) : Py Cert :=
  fun w =>
    let '(now, ck) := clock_time (w_clock w) in
    (Val (set_notAfter c (now + amount)), with_clock ck w).

(** [crypto.X509Extension(type_name, critical, value, subject=subject)] *)
Definition X509Extension_new (type_name : string) (critical : bool)
    (value : string) (subject : option Cert) : Ext :=
  {| ext_name := type_name; ext_critical := critical; ext_value := value;
     ext_subject_key := match subject with Some c => x_pubkey c | None => None end |}.

(** What a signature covers: the certificate without its signature. *)
Definition X509_tbs (c : Cert) : Bytes := tbs_certificate (set_signature c None).

(** [cert.sign(pkey, digest)] *)
Definition X509_sign (c : Cert) (pkey : PKey) (digest : string) : Py Cert :=
  emit (ev_sign digest) ;;
  s <- of_option (pkey_sign pkey digest (X509_tbs c)) crypto_Error ;;
  ret (set_signature c (Some (digest, s))).

(** [X509_verify(cert, pubkey)]; the module never calls it. *)
Definition X509_verify (c : Cert) (k : PubKey) : bool :=
  match x_signature c with
  | Some (digest, s) => pkey_verify k digest (X509_tbs c) s
  | None => false
  end.

(** [crypto.X509Req()] *)
Definition X509Req_new : Req :=
  {| r_subject := X509Name_new; r_pubkey := None; r_signature := None |}.

(** [req.get_subject().CN = value] *)
Definition req_subject_set_CN (r : Req) (value : string) : Py Req :=
  n <- X509Name_set_CN (r_subject r) value ;;
  ret {| r_subject := n; r_pubkey := r_pubkey r; r_signature := r_signature r |}.

Definition req_set_pubkey (r : Req) (k : PubKey) : Req :=
  {| r_subject := r_subject r; r_pubkey := Some k; r_signature := r_signature r |}.

Definition X509Req_tbs (r : Req) : Bytes :=
  tbs_request {| r_subject := r_subject r; r_pubkey := r_pubkey r;
                 r_signature := None |}.

(** [req.sign(pkey, digest)] *)
Definition req_sign (r : Req) (pkey : PKey) (digest : string) : Py Req :=
  emit (ev_sign digest) ;;
  s <- of_option (pkey_sign pkey digest (X509Req_tbs r)) crypto_Error ;;
  ret {| r_subject := r_subject r; r_pubkey := r_pubkey r;
         r_signature := Some (digest, s) |}.

(** [req.get_pubkey()] *)
Definition req_get_pubkey (r : Req) : Py PubKey :=
  of_option (r_pubkey r) crypto_Error.

(** [crypto.load_certificate(FILETYPE_PEM, data)] *)
Definition crypto_load_certificate (data : Bytes) : Py Cert :=
  emit ev_load_certificate ;;
  of_option (load_certificate data) crypto_Error.

(** [crypto.load_privatekey(FILETYPE_PEM, data)] *)
Definition crypto_load_privatekey (data : Bytes) : Py PKey :=
  emit ev_load_privatekey ;;
  of_option (load_privatekey data) crypto_Error.

End Code.

(** ** class CertificateAuthority *)

Section CertificateAuthority.
Context {P : Platform}.
Local Open Scope py_scope.

(** The instance attributes set by [__init__]. *)
Record CertificateAuthority := {
  self_ca_file : string;
  self_certs_dir : string;
  self_cert : Cert;
  self_key : PKey;
}.

Definition write_pem (filename : string) (cert : Cert) (key : PKey) : Py unit :=
  f <- open_w filename ;;
  file_write f (dump_privatekey key) ;;
  file_write f (dump_certificate cert).

Definition read_pem (filename : string) : Py (Cert * PKey) :=
  f <- open_r filename ;;
  let '(data, f) := file_read f in
  cert <- crypto_load_certificate data ;;
  let f := file_seek0 f in
  let '(data, f) := file_read f in
  key <- crypto_load_privatekey data ;;
  ret (cert, key).

Definition _make_cert (certname : string) : Py Cert :=
  let cert := X509_new in
  let cert := set_version cert 3 in
  n <- random_randint 0 (2 ^ 64 - 1) ;;
  let cert := set_serial_number cert n in
  cert <- subject_set_CN cert certname ;;
  cert <- gmtime_adj_notBefore cert 0 ;;
  cert <- gmtime_adj_notAfter cert CERT_DURATION ;;
  ret cert.

(** The list handed to [add_extensions] in [generate_ca_root]. *)
Definition ca_extensions (cert : Cert) : list Ext :=
  [ X509Extension_new "basicConstraints" true "CA:TRUE, pathlen:0" None;
    X509Extension_new "keyUsage" true "keyCertSign, cRLSign" None;
    X509Extension_new "subjectKeyIdentifier" false "hash" (Some cert) ].

Definition generate_ca_root (ca_file certname : option string) (overwrite : bool)
    : Py (bool * Cert * PKey) :=
  let certname := py_default certname CERT_NAME in
  let ca_file := py_default ca_file CERT_CA_FILE in
  found <- (if negb overwrite then os_path_exists ca_file else ret false) ;;
  if found then
    '(cert, key) <- read_pem ca_file ;;
    ret (false, cert, key)
  else
    (* Generate key *)
    key <- PKey_generate_key TYPE_RSA 2048 ;;
    (* Generate cert *)
    cert <- _make_cert certname ;;
    let cert := set_issuer cert (get_subject cert) in
    let cert := set_pubkey cert (pkey_public key) in
    let cert := add_extensions cert (ca_extensions cert) in
    cert <- X509_sign cert key "sha1" ;;
    (* Write cert + key *)
    write_pem ca_file cert key ;;
    ret (true, cert, key).

Definition generate_host_cert (host : string) (root_cert : Cert) (root_key : PKey)
    (host_filename : string) : Py (Cert * PKey) :=
  (* Generate key *)
  key <- PKey_generate_key TYPE_RSA 2048 ;;
  (* Generate CSR *)
  let req := X509Req_new in
  req <- req_subject_set_CN req host ;;
  let req := req_set_pubkey req (pkey_public key) in
  req <- req_sign req key "sha1" ;;
  (* Generate Cert *)
  cert <- _make_cert host ;;
  let cert := set_issuer cert (get_subject root_cert) in
  pub <- req_get_pubkey req ;;
  let cert := set_pubkey cert pub in
  cert <- X509_sign cert root_key "sha1" ;;
  (* Write cert + key *)
  write_pem host_filename cert key ;;
  ret (cert, key).

Definition __init__ (ca_file certs_dir : option string) : Py CertificateAuthority :=
  let ca_file := py_default ca_file CERT_CA_FILE in
  let certs_dir := py_default certs_dir CERTS_DIR in
  (* read previously created root cert *)
  '(cert, key) <- read_pem ca_file ;;
  found <- os_path_exists certs_dir ;;
  (if negb found then os_mkdir certs_dir else ret tt) ;;
  ret {| self_ca_file := ca_file; self_certs_dir := certs_dir;
         self_cert := cert; self_key := key |}.

Definition host_filename_of (certs_dir host : string) : string :=
  str_join os_path_sep [certs_dir; pem_name host].
Arguments host_filename_of : simpl never.

Definition get_cert_for_host (self : CertificateAuthority) (host : string)
    (overwrite : bool) : Py (bool * string) :=
  let host_filename := host_filename_of (self_certs_dir self) host in
  found <- (if negb overwrite then os_path_exists host_filename else ret false) ;;
  if found then
    ret (false, host_filename)
  else
    generate_host_cert host (self_cert self) (self_key self) host_filename ;;
    ret (true, host_filename).

End CertificateAuthority.

(** ** The command line *)

(** What [parser.parse_args()] returns: [output_file] is positional,
    [--use-root] is [None] when absent, [--name] and [--certs-dir] have
    the module defaults, [--force] is a flag. *)
Record Args := {
  a_output_file : string;
  a_use_root : option string;
  a_name : string;
  a_certs_dir : string;
  a_force : bool;
}.

(** What [main] can die of: a [TypeError] of the interpreter, or an
    exception of the calls it makes, which it does not catch. *)
Inductive main_exn :=
| TypeError
| Uncaught (e : exn).

(** [main] prints one line or dies. *)
Inductive main_outcome :=
| Printed (line : string)
| Died (e : main_exn).

(** The double-quote character. *)
Definition dquote : string := String (Ascii.ascii_of_nat 34) "".

(** The first keyword of a call that names no parameter of the function
    called; Python raises [TypeError] for it before the body runs. *)
Definition unexpected_keyword (params keywords : list string) : option string :=
  List.find (fun k => negb (existsb (String.eqb k) params)) keywords.

(** The value passed for the keyword [k], if any. *)
Fixpoint kwarg (k : string) (kwargs : list (string * option string))
    : option (option string) :=
  match kwargs with
  | [] => None
  | (k', v) :: rest => if String.eqb k k' then Some v else kwarg k rest
  end.

Section Main.
Context {P : Platform}.

(** [CertificateAuthority(k1=v1, ...)]: the keywords are bound to the
    parameters [ca_file] and [certs_dir] of [__init__], both required. *)
Definition CertificateAuthority_call (kwargs : list (string * option string))
    (w : World) : (main_exn + CertificateAuthority) * World :=
  match unexpected_keyword ["ca_file"; "certs_dir"] (map fst kwargs) with
  | Some _ => (inl TypeError, w)
  | None =>
      match kwarg "ca_file" kwargs, kwarg "certs_dir" kwargs with
      | Some ca_file, Some certs_dir =>
          match __init__ ca_file certs_dir w with
          | (Val ca, w') => (inr ca, w')
          | (Exn e, w') => (inl (Uncaught e), w')
          end
      | _, _ => (inl TypeError, w)
      end
  end.

Definition main (result : Args) (w : World) : main_outcome * World :=
  let overwrite := a_force result in
  (* Create a new signed certificate using specified root *)
  if py_truth (a_use_root result) then
    match CertificateAuthority_call
            [ ("ca_file", a_use_root result);
              ("certs_dir", Some (a_certs_dir result));
              ("certname", Some (a_name result)) ] w with
    | (inl e, w') => (Died e, w')
    | (inr ca, w') =>
        match get_cert_for_host ca (a_output_file result) overwrite w' with
        | (Exn e, w'') => (Died (Uncaught e), w'')
        | (Val (created, host_filename), w'') =>
            if created then
              (Printed ("Created new cert " +:+ dquote +:+ host_filename +:+
                        dquote +:+ " signed by root cert " +:+
                        py_default (a_use_root result) ""), w'')
            else
              (Printed ("Cert " +:+ dquote +:+ host_filename +:+ dquote +:+
                        " already exists," +:+ " use -f to overwrite"), w'')
        end
    end
  (* Create new root certificate *)
  else
    match generate_ca_root (Some (a_output_file result))
            (Some (a_name result)) overwrite w with
    | (Exn e, w') => (Died (Uncaught e), w')
    | (Val (created, c, k), w') =>
        if created then
          (Printed ("Created new root cert: " +:+ dquote +:+
                    a_output_file result +:+ dquote), w')
        else
          (Printed ("Root cert " +:+ dquote +:+ a_output_file result +:+
                    dquote +:+ " already exists," +:+ " use -f to overwrite"), w')
    end.

End Main.

(** ** Paths, read lexically *)











(** ** A reference platform

    Files hold sequences of PEM blocks, keys are numbered, [random] reads
    from a script.  It is there to run the model and to show that the
    platform hypotheses used below can hold together. *)

Module Ref.

#[local] Set Warnings "-register-all".
Inductive Chunk :=
| KeyBlock (id bits : Z)
| CertBlock (c : X509 Z (list Chunk))
| Raw (n : Z).
#[local] Set Warnings "+register-all".

Definition RBytes := list Chunk.

(** Files as an association list, the first entry for a path being the
    file; directories as a list of paths; and whether the disk is full:
    files can then still be created, but nothing can be written. *)
Record RFS := {
  files : list (string * RBytes);
  dirs : list string;
  disk_full : bool;
}.

Fixpoint r_lookup (p : string) (l : list (string * RBytes)) : option RBytes :=
  match l with
  | [] => None
  | (q, d) :: rest => if String.eqb p q then Some d else r_lookup p rest
  end.

Fixpoint r_alter (f : RBytes -> RBytes) (p : string)
    (l : list (string * RBytes)) : list (string * RBytes) :=
  match l with
  | [] => []
  | (q, d) :: rest =>
      if String.eqb p q then (q, f d) :: rest else (q, d) :: r_alter f p rest
  end.

Fixpoint r_remove (p : string) (l : list (string * RBytes))
    : list (string * RBytes) :=
  match l with
  | [] => []
  | (q, d) :: rest =>
      if String.eqb p q then r_remove p rest else (q, d) :: r_remove p rest
  end.

Definition r_is_dir (fs : RFS) (p : string) : bool :=
  existsb (String.eqb p) (dirs fs).

Definition r_path_exists (fs : RFS) (p : string) : bool :=
  match r_lookup p (files fs) with
  | Some _ => true
  | None => r_is_dir fs p
  end.

Definition r_open_r (fs : RFS) (p : string) : option RBytes :=
  r_lookup p (files fs).

Definition r_open_w (fs : RFS) (p : string) : option RFS :=
  if r_is_dir fs p || String.eqb p "" then None
  else Some {| files := (p, []) :: r_remove p (files fs); dirs := dirs fs;
               disk_full := disk_full fs |}.

Definition r_append (fs : RFS) (p : string) (b : RBytes) : RFS :=
  {| files := r_alter (fun d => app d b) p (files fs); dirs := dirs fs;
     disk_full := disk_full fs |}.

(** On a full disk a write fails and the file stays as it was. *)
Definition r_write_fails (fs : RFS) (p : string) (b : RBytes) : option RFS :=
  if disk_full fs then Some fs else None.

Definition r_mkdir (fs : RFS) (p : string) : option RFS :=
  if r_path_exists fs p || String.eqb p "" then None
  else Some {| files := files fs; dirs := p :: dirs fs;
               disk_full := disk_full fs |}.

Definition r_clock_time (c : Z) : Z * Z := (c, c + 1).

Definition r_randint (lo hi : Z) (s : list Z) : Z * list Z :=
  match s with
  | [] => (lo, [])
  | x :: s' => (Z.max lo (Z.min hi x), s')
  end.

(** The entropy pool is a counter that numbers the keys, so that no two
    keys generated are the same; a negative counter is a pool that gives
    nothing. *)
Definition r_generate (t : key_type) (bits : Z) (e : Z) : option (Z * Z) * Z :=
  if Z.ltb e 0 then (None, e) else (Some (e, bits), e + 1).

(** OpenSSL takes a common name of 1 to 64 characters. *)
Definition r_name_entry_ok (s : string) : bool :=
  Z.leb 1 (Z.of_nat (String.length s)) && Z.leb (Z.of_nat (String.length s)) 64.

Definition r_tbs_certificate (c : X509 Z RBytes) : RBytes := [Raw (x_serial c)].

Definition r_tbs_request (r : X509Req Z RBytes) : RBytes := [Raw 0].

Definition r_digest (m : RBytes) : Z :=
  match m with
  | Raw n :: _ => n
  | _ => 0
  end.

Definition r_sign (k : Z * Z) (digest : string) (m : RBytes) : option RBytes :=
  if String.eqb digest "sha1" then Some [Raw (fst k); Raw (r_digest m)] else None.

Definition r_verify (pub : Z) (digest : string) (m s : RBytes) : bool :=
  match s with
  | [Raw k; Raw d] => (k =? pub) && (d =? r_digest m)
  | _ => false
  end.

Fixpoint r_load_privatekey (data : RBytes) : option (Z * Z) :=
  match data with
  | [] => None
  | KeyBlock id bits :: _ => Some (id, bits)
  | _ :: rest => r_load_privatekey rest
  end.

Fixpoint r_load_certificate (data : RBytes) : option (X509 Z RBytes) :=
  match data with
  | [] => None
  | CertBlock c :: _ => Some c
  | _ :: rest => r_load_certificate rest
  end.

Definition platform : Platform := {|
  Bytes := RBytes;
  bytes_empty := [];
  bytes_app := @app Chunk;
  FS := RFS;
  path_exists := r_path_exists;
  fs_open_r := r_open_r;
  fs_open_w := r_open_w;
  fs_append := r_append;
  fs_write_fails := r_write_fails;
  fs_mkdir := r_mkdir;
  Clock := Z;
  clock_time := r_clock_time;
  RandState := list Z;
  randint := r_randint;
  PKey := Z * Z;
  PubKey := Z;
  Entropy := Z;
  pkey_public := fst;
  pkey_bits := snd;
  pkey_generate := r_generate;
  name_entry_ok := r_name_entry_ok;
  tbs_certificate := r_tbs_certificate;
  tbs_request := r_tbs_request;
  pkey_sign := r_sign;
  pkey_verify := r_verify;
  dump_privatekey := fun k => [KeyBlock (fst k) (snd k)];
  dump_certificate := fun c => [CertBlock c];
  load_privatekey := r_load_privatekey;
  load_certificate := r_load_certificate;
|}.

(** A world with the given files and directories, the clock at [now],
    the script [rnd] for [random] and the entropy counter at [ent]. *)
Definition world (fs : RFS) (now : Z) (rnd : list Z) (ent : Z) : @World platform :=
  {| w_fs := fs : @FS platform; w_clock := now : @Clock platform;
     w_random := rnd : @RandState platform;
     w_entropy := ent : @Entropy platform; w_trace := [] |}.

Definition empty_fs : RFS := {| files := []; dirs := []; disk_full := false |}.

(** Sample data: a root as [generate_ca_root] makes it, the file that
    holds it, a manager over it, and worlds to start from. *)

Definition root_key : @PKey platform := (11, 2048).

Definition root_cert : X509 (@PubKey platform) (@Bytes platform) :=
  {| x_version := 3; x_serial := 5;
     x_subject := {| CN := Some "Test CA" |};
     x_issuer := {| CN := Some "Test CA" |};
     x_notBefore := Some 1000; x_notAfter := Some 3153601001;
     x_pubkey := Some 11;
     x_extensions :=
       [ {| ext_name := "basicConstraints"; ext_critical := true;
            ext_value := "CA:TRUE, pathlen:0"; ext_subject_key := None |};
         {| ext_name := "keyUsage"; ext_critical := true;
            ext_value := "keyCertSign, cRLSign"; ext_subject_key := None |};
         {| ext_name := "subjectKeyIdentifier"; ext_critical := false;
            ext_value := "hash"; ext_subject_key := Some 11 |} ];
     x_signature := Some ("sha1", [Raw 11; Raw 5]) |}.

Definition ca : @CertificateAuthority platform :=
  {| self_ca_file := "ca.pem"; self_certs_dir := "certs";
     self_cert := root_cert; self_key := root_key |}.

(** Nothing on disk. *)
Definition w_fresh : @World platform := world empty_fs 1000 [5; 7; 9] 11.

(** The root file is there, the cache directory is not. *)
Definition fs_root : RFS :=
  {| files := [("ca.pem", [KeyBlock 11 2048; CertBlock root_cert])];
     dirs := []; disk_full := false |}.

Definition w_root : @World platform := world fs_root 2000 [7; 9] 13.

(** Root file and cache directory are there. *)
Definition fs_ready : RFS :=
  {| files := [("ca.pem", [KeyBlock 11 2048; CertBlock root_cert])];
     dirs := ["certs"]; disk_full := false |}.

Definition w_ready : @World platform := world fs_ready 2000 [7; 9] 13.

(** As [w_ready], with a [random] that gives the same value twice. *)
Definition w_repeat : @World platform := world fs_ready 2000 [7; 7] 13.

(** The keys that two issuances get with the entropy counter at 13. *)
Definition host_key1 : @PKey platform := (13, 2048).
Definition host_key2 : @PKey platform := (14, 2048).

(** A root file cut short: the key block is there, the certificate is not. *)
Definition fs_truncated : RFS :=
  {| files := [("ca.pem", [KeyBlock 11 2048])]; dirs := [];
     disk_full := false |}.

Definition w_truncated : @World platform := world fs_truncated 2000 [7; 9] 13.

(** A hand-made root file: the certificate first, then the key, then
    something else. *)
Definition fs_cert_first : RFS :=
  {| files := [("rev.pem", [CertBlock root_cert; KeyBlock 11 2048; Raw 0])];
     dirs := []; disk_full := false |}.

Definition w_cert_first : @World platform :=
  world fs_cert_first 2000 [7; 9] 13.

(** As [fs_ready], with a file already cached for 'a.test'. *)
Definition fs_cached : RFS :=
  {| files := [("certs/a.test.pem", [KeyBlock 3 2048; Raw 1]);
               ("ca.pem", [KeyBlock 11 2048; CertBlock root_cert])];
     dirs := ["certs"]; disk_full := false |}.

Definition w_cached : @World platform := world fs_cached 2000 [7; 9] 13.

(** As [fs_ready], on a full disk. *)
Definition fs_full : RFS :=
  {| files := [("ca.pem", [KeyBlock 11 2048; CertBlock root_cert])];
     dirs := ["certs"]; disk_full := true |}.

Definition w_full : @World platform := world fs_full 2000 [7; 9] 13.

(** The root file under its default name, the cache directory absent. *)
Definition fs_default : RFS :=
  {| files := [("./pywb-ca.pem", [KeyBlock 11 2048; CertBlock root_cert])];
     dirs := []; disk_full := false |}.

Definition w_default : @World platform := world fs_default 2000 [7; 9] 13.



Definition args_host : Args :=
  {| a_output_file := "a.test"; a_use_root := Some "ca.pem";
     a_name := CERT_NAME; a_certs_dir := "certs"; a_force := false |}.

End Ref.

(** ** Specification predicates *)

Section Specs.
Context {P : Platform}.

(** What [_make_cert certname], started in [w], leaves in the certificate:
    version, serial, subject and validity; nothing else is set. *)
Definition is_template (certname : string) (w : World) (cert : Cert) : Prop :=
  x_version cert = 3 /\
  x_serial cert = fst (randint 0 (2 ^ 64 - 1) (w_random w)) /\
  x_subject cert = {| CN := Some certname |} /\
  x_notBefore cert = Some (fst (clock_time (w_clock w))) /\
  x_notAfter cert =
    Some (fst (clock_time (snd (clock_time (w_clock w)))) + CERT_DURATION) /\
  x_issuer cert = X509Name_new /\
  x_pubkey cert = None /\
  x_extensions cert = [] /\
  x_signature cert = None.

(** [c] carries the template fields of [t]. *)
Definition same_template (t c : Cert) : Prop :=
  x_version c = x_version t /\
  x_serial c = x_serial t /\
  x_subject c = x_subject t /\
  x_notBefore c = x_notBefore t /\
  x_notAfter c = x_notAfter t.

(** The two writes of [write_pem] to the file [p], opened as [fs1]:
    both succeed, or one of them fails and leaves [fs']. *)
Definition writes_succeed (fs1 : FS) (p : string) (cert : Cert) (key : PKey)
    : Prop :=
  fs_write_fails fs1 p (dump_privatekey key) = None /\
  fs_write_fails (fs_append fs1 p (dump_privatekey key)) p
    (dump_certificate cert) = None.

Definition write_failed (fs1 : FS) (p : string) (cert : Cert) (key : PKey)
    (fs' : FS) : Prop :=
  fs_write_fails fs1 p (dump_privatekey key) = Some fs' \/
  (fs_write_fails fs1 p (dump_privatekey key) = None /\
   fs_write_fails (fs_append fs1 p (dump_privatekey key)) p
     (dump_certificate cert) = Some fs').

(** However [m] ends, every path that existed before exists after. *)
Definition keeps_paths {A} (m : Py A) : Prop :=
  forall w r w' q,
    m w = (r, w') ->
    path_exists (w_fs w) q = true -> path_exists (w_fs w') q = true.

(** [w'] differs from [w] by the calls [evs] appended to the trace only. *)
Definition only_logged (w w' : World) (evs : list Event) : Prop :=
  w_fs w' = w_fs w /\ w_clock w' = w_clock w /\ w_random w' = w_random w /\
  w_entropy w' = w_entropy w /\ w_trace w' = w_trace w ++ evs.

(** What [_make_cert] does to the world: one draw from [random], two
    readings of the clock. *)
Definition after_make_cert (w w' : World) : Prop :=
  w_fs w' = w_fs w /\
  w_entropy w' = w_entropy w /\
  w_random w' = snd (randint 0 (2 ^ 64 - 1) (w_random w)) /\
  w_clock w' = snd (clock_time (snd (clock_time (w_clock w)))) /\
  w_trace w' = w_trace w ++ [ev_randint 0 (2 ^ 64 - 1)].

End Specs.

(** * Properties *)

Section MonadFacts.
Context {P : Platform}.

Lemma bind_val {A B} (m : Py A) (k : A -> Py B) w a w1 :
  m w = (Val a, w1) -> bind m k w = k a w1.
Proof. intros H. unfold bind. now rewrite H. Qed.

Lemma bind_exn {A B} (m : Py A) (k : A -> Py B) w e w1 :
  m w = (Exn e, w1) -> bind m k w = (Exn e, w1).
Proof. intros H. unfold bind. now rewrite H. Qed.

Lemma bind_inv_val {A B} (m : Py A) (k : A -> Py B) w b w' :
  bind m k w = (Val b, w') ->
  exists a w1, m w = (Val a, w1) /\ k a w1 = (Val b, w').
Proof.
  unfold bind. destruct (m w) as [[a|e] w1]; intros H.
  - exists a, w1. split; [reflexivity | exact H].
  - discriminate H.
Qed.

Lemma of_option_inv_val {A} (o : option A) e w a w' :
  of_option o e w = (Val a, w') -> o = Some a /\ w' = w.
Proof.
  destruct o as [x|]; cbn; intros H; inversion H; subst; auto.
Qed.

End MonadFacts.

Section TemplateFacts.
Context {P : Platform}.

Lemma make_cert_inv certname w cert w' :
  _make_cert certname w = (Val cert, w') ->
  name_entry_ok certname = true /\ is_template certname w cert /\
  after_make_cert w w'.
Proof.
  unfold _make_cert, random_randint, subject_set_CN, X509Name_set_CN,
    gmtime_adj_notBefore, gmtime_adj_notAfter, bind, emit, ret, raise.
  cbn.
  destruct (randint 0 (2 ^ 64 - 1) (w_random w)) as [n r] eqn:Hn.
  destruct (name_entry_ok certname); cbn; [|discriminate].
  destruct (clock_time (w_clock w)) as [t1 c1] eqn:Ht1. cbn.
  destruct (clock_time c1) as [t2 c2] eqn:Ht2. cbn.
  intros H. inversion H; subst; clear H.
  split; [reflexivity|].
  split; unfold is_template, after_make_cert; cbn;
    rewrite ?Hn, ?Ht1; cbn; rewrite ?Ht2; cbn; repeat split.
  now rewrite Z.add_0_r.
Qed.

Lemma make_cert_returns certname w :
  name_entry_ok certname = true ->
  exists cert w', _make_cert certname w = (Val cert, w').
Proof.
  intros Hok.
  unfold _make_cert, random_randint, subject_set_CN, X509Name_set_CN,
    gmtime_adj_notBefore, gmtime_adj_notAfter, bind, emit, ret, raise.
  cbn.
  destruct (randint 0 (2 ^ 64 - 1) (w_random w)) as [n r].
  rewrite Hok. cbn.
  destruct (clock_time (w_clock w)) as [t1 c1]. cbn.
  destruct (clock_time c1) as [t2 c2]. cbn. eauto.
Qed.

Lemma make_cert_rejects certname w :
  name_entry_ok certname = false ->
  exists w', _make_cert certname w = (Exn crypto_Error, w') /\
             w_fs w' = w_fs w /\ w_entropy w' = w_entropy w.
Proof.
  intros Hno.
  unfold _make_cert, random_randint, subject_set_CN, X509Name_set_CN,
    gmtime_adj_notBefore, gmtime_adj_notAfter, bind, emit, ret, raise.
  cbn.
  destruct (randint 0 (2 ^ 64 - 1) (w_random w)) as [n r].
  rewrite Hno. cbn. eauto.
Qed.

End TemplateFacts.

Section PemFacts.
Context {P : Platform}.

Lemma write_pem_returns filename cert key w fs1 :
  fs_open_w (w_fs w) filename = Some fs1 ->
  writes_succeed fs1 filename cert key ->
  write_pem filename cert key w =
    (Val tt,
     {| w_fs := fs_append (fs_append fs1 filename (dump_privatekey key))
                          filename (dump_certificate cert);
        w_clock := w_clock w; w_random := w_random w;
        w_entropy := w_entropy w;
        w_trace := ((w_trace w ++ [ev_open filename "wb+"])
                      ++ [ev_write filename]) ++ [ev_write filename] |}).
Proof.
  intros H [H1 H2]. unfold write_pem, open_w, file_write, bind, emit. cbn.
  rewrite H. cbn. rewrite H1. cbn. now rewrite H2.
Qed.

Lemma write_pem_fails filename cert key w :
  fs_open_w (w_fs w) filename = None ->
  write_pem filename cert key w = (Exn IOError, log (ev_open filename "wb+") w).
Proof.
  intros H. unfold write_pem, open_w, file_write, bind, emit. cbn.
  now rewrite H.
Qed.

(** A write that fails after the open: [IOError], the file system left
    as the failed write says, one or two writes attempted. *)
Lemma write_pem_breaks filename cert key w fs1 fs' :
  fs_open_w (w_fs w) filename = Some fs1 ->
  write_failed fs1 filename cert key fs' ->
  exists evs,
    write_pem filename cert key w =
      (Exn IOError,
       {| w_fs := fs'; w_clock := w_clock w; w_random := w_random w;
          w_entropy := w_entropy w;
          w_trace := w_trace w ++ ev_open filename "wb+" :: evs |}) /\
    (evs = [ev_write filename] \/ evs = [ev_write filename; ev_write filename]).
Proof.
  intros H [H1 | [H1 H2]].
  - exists [ev_write filename]. split; [|now left].
    unfold write_pem, open_w, file_write, bind, emit. cbn.
    rewrite H. cbn. rewrite H1. unfold with_fs, log. cbn.
    now rewrite <- !app_assoc.
  - exists [ev_write filename; ev_write filename]. split; [|now right].
    unfold write_pem, open_w, file_write, bind, emit. cbn.
    rewrite H. cbn. rewrite H1. cbn. rewrite H2. unfold with_fs, log. cbn.
    now rewrite <- !app_assoc.
Qed.

(** The three ways [write_pem] can end. *)
Lemma write_pem_cases filename cert key w :
  fs_open_w (w_fs w) filename = None \/
  exists fs1, fs_open_w (w_fs w) filename = Some fs1 /\
    (writes_succeed fs1 filename cert key \/
     exists fs', write_failed fs1 filename cert key fs').
Proof.
  destruct (fs_open_w (w_fs w) filename) as [fs1|]; [right|now left].
  exists fs1. split; [reflexivity|]. unfold writes_succeed, write_failed.
  destruct (fs_write_fails fs1 filename (dump_privatekey key)) as [fs'|];
    [right; exists fs'; now left|].
  destruct (fs_write_fails (fs_append fs1 filename (dump_privatekey key))
              filename (dump_certificate cert)) as [fs'|];
    [right; exists fs'; now right | now left].
Qed.

Lemma write_pem_inv filename cert key w u w' :
  write_pem filename cert key w = (Val u, w') ->
  exists fs1,
    fs_open_w (w_fs w) filename = Some fs1 /\
    w_fs w' = fs_append (fs_append fs1 filename (dump_privatekey key))
                        filename (dump_certificate cert) /\
    w_clock w' = w_clock w /\ w_random w' = w_random w /\
    w_entropy w' = w_entropy w /\
    w_trace w' = w_trace w ++
      [ev_open filename "wb+"; ev_write filename; ev_write filename].
Proof.
  destruct (write_pem_cases filename cert key w)
    as [Hopen | (fs1 & Hopen & [Hok | (fs' & Hbad)])].
  - rewrite (write_pem_fails _ _ _ _ Hopen). discriminate.
  - rewrite (write_pem_returns _ _ _ _ _ Hopen Hok). intros H.
    inversion H; subst; clear H. exists fs1. cbn.
    rewrite <- !app_assoc. repeat split. exact Hopen.
  - destruct (write_pem_breaks _ _ _ _ _ _ Hopen Hbad) as (evs & -> & _).
    discriminate.
Qed.

(** How [write_pem] can fail: at the open, with nothing changed, or in a
    write to the file it has opened. *)
Lemma write_pem_raises filename cert key w e w' :
  write_pem filename cert key w = (Exn e, w') ->
  e = IOError /\
  w_clock w' = w_clock w /\ w_random w' = w_random w /\
  w_entropy w' = w_entropy w /\
  ((fs_open_w (w_fs w) filename = None /\
    w' = log (ev_open filename "wb+") w) \/
   (exists fs1,
      fs_open_w (w_fs w) filename = Some fs1 /\
      write_failed fs1 filename cert key (w_fs w'))).
Proof.
  destruct (write_pem_cases filename cert key w)
    as [Hopen | (fs1 & Hopen & [Hok | (fs' & Hbad)])].
  - rewrite (write_pem_fails _ _ _ _ Hopen). intros H.
    inversion H; subst; clear H. repeat split. now left.
  - rewrite (write_pem_returns _ _ _ _ _ Hopen Hok). discriminate.
  - destruct (write_pem_breaks _ _ _ _ _ _ Hopen Hbad) as (evs & -> & _).
    intros H. inversion H; subst; clear H. repeat split.
    right. now exists fs1.
Qed.

Lemma read_pem_no_file filename w :
  fs_open_r (w_fs w) filename = None ->
  read_pem filename w = (Exn IOError, log (ev_open filename "r") w).
Proof.
  intros H. unfold read_pem, open_r, bind, emit. cbn. now rewrite H.
Qed.

Lemma read_pem_run filename w data :
  fs_open_r (w_fs w) filename = Some data ->
  read_pem filename w =
    let w1 := log ev_load_certificate (log (ev_open filename "r") w) in
    match load_certificate data with
    | None => (Exn crypto_Error, w1)
    | Some cert =>
        match load_privatekey data with
        | None => (Exn crypto_Error, log ev_load_privatekey w1)
        | Some key => (Val (cert, key), log ev_load_privatekey w1)
        end
    end.
Proof.
  intros H.
  unfold read_pem, open_r, crypto_load_certificate, crypto_load_privatekey,
    file_read, file_seek0, bind, emit, of_option, ret, raise.
  cbn. rewrite H. cbn.
  destruct (load_certificate data); cbn; [|reflexivity].
  destruct (load_privatekey data); reflexivity.
Qed.

Lemma read_pem_inv filename w cert key w' :
  read_pem filename w = (Val (cert, key), w') ->
  exists data,
    fs_open_r (w_fs w) filename = Some data /\
    load_certificate data = Some cert /\
    load_privatekey data = Some key /\
    only_logged w w'
      [ev_open filename "r"; ev_load_certificate; ev_load_privatekey].
Proof.
  destruct (fs_open_r (w_fs w) filename) as [data|] eqn:Hopen.
  - rewrite (read_pem_run _ _ _ Hopen). cbn.
    destruct (load_certificate data) as [c|] eqn:Hc; [|discriminate].
    destruct (load_privatekey data) as [k|] eqn:Hk; [|discriminate].
    intros H. inversion H; subst; clear H.
    exists data. repeat split; trivial. cbn. now rewrite <- !app_assoc.
  - rewrite (read_pem_no_file _ _ Hopen). discriminate.
Qed.

End PemFacts.

Section CryptoCalls.
Context {P : Platform}.

Lemma generate_key_run t bits w k e1 :
  pkey_generate t bits (w_entropy w) = (Some k, e1) ->
  PKey_generate_key t bits w =
    (Val k, with_entropy e1 (log (ev_generate_key t bits) w)).
Proof.
  intros H. unfold PKey_generate_key, bind, emit. cbn. now rewrite H.
Qed.

Lemma generate_key_inv t bits w k w1 :
  PKey_generate_key t bits w = (Val k, w1) ->
  exists e1, pkey_generate t bits (w_entropy w) = (Some k, e1) /\
             w1 = with_entropy e1 (log (ev_generate_key t bits) w).
Proof.
  unfold PKey_generate_key, bind, emit. cbn.
  destruct (pkey_generate t bits (w_entropy w)) as [[k'|] e1]; cbn;
    intros H; inversion H; subst. now exists e1.
Qed.

Lemma sign_run c k d w s :
  pkey_sign k d (X509_tbs c) = Some s ->
  X509_sign c k d w = (Val (set_signature c (Some (d, s))), log (ev_sign d) w).
Proof.
  intros H. unfold X509_sign, bind, emit. cbn. now rewrite H.
Qed.

Lemma sign_inv c k d w c' w1 :
  X509_sign c k d w = (Val c', w1) ->
  exists s, pkey_sign k d (X509_tbs c) = Some s /\
            c' = set_signature c (Some (d, s)) /\ w1 = log (ev_sign d) w.
Proof.
  unfold X509_sign, bind, emit. cbn.
  destruct (pkey_sign k d (X509_tbs c)) as [s|]; cbn;
    intros H; inversion H; subst. now exists s.
Qed.


Lemma req_sign_inv r k d w r' w1 :
  req_sign r k d w = (Val r', w1) ->
  exists s, pkey_sign k d (X509Req_tbs r) = Some s /\
            r_pubkey r' = r_pubkey r /\ w1 = log (ev_sign d) w.
Proof.
  unfold req_sign, bind, emit. cbn.
  destruct (pkey_sign k d (X509Req_tbs r)) as [s|]; cbn;
    intros H; inversion H; subst. now exists s.
Qed.


Lemma req_set_CN_inv r v w r' w1 :
  req_subject_set_CN r v w = (Val r', w1) ->
  name_entry_ok v = true /\ w1 = w /\
  r' = {| r_subject := {| CN := Some v |}; r_pubkey := r_pubkey r;
          r_signature := r_signature r |}.
Proof.
  unfold req_subject_set_CN, X509Name_set_CN, bind.
  destruct (name_entry_ok v); cbn; intros H; inversion H; subst; auto.
Qed.

(** A signature made by [X509_sign] is over the signed certificate's own
    to-be-signed part. *)
Lemma tbs_set_signature c s : X509_tbs (set_signature c s) = X509_tbs c.
Proof. reflexivity. Qed.

End CryptoCalls.

(** ** An argument and its default *)

Section DefaultFacts.

Lemma py_default_falsy x d : py_truth x = false -> py_default x d = d.
Proof.
  destruct x as [s|]; [|reflexivity].
  unfold py_default. now intros ->.
Qed.

Lemma py_truth_falsy x : py_truth x = false <-> x = None \/ x = Some "".
Proof.
  split.
  - destruct x as [s|]; [|now left]. cbn. intros H. right.
    apply negb_false_iff, String.eqb_eq in H. now subst.
  - now intros [-> | ->].
Qed.

(** A non-empty string stands for itself. *)
Lemma py_default_truthy s d : s <> "" -> py_default (Some s) d = s.
Proof.
  intros H. unfold py_default, py_truth.
  destruct (String.eqb s "") eqn:E; [|reflexivity].
  apply String.eqb_eq in E. contradiction.
Qed.

End DefaultFacts.

(** ** Guarantees, under the platform facts they rest on *)

Section Guarantees.
Context {P : Platform}.

(** Appending to nothing. *)
Hypothesis bytes_app_empty_l : forall b, bytes_app bytes_empty b = b.

(** A file just opened with ['wb+'] is empty. *)
Hypothesis open_w_truncates : forall fs p fs',
  fs_open_w fs p = Some fs' -> fs_open_r fs' p = Some bytes_empty.

(** [f.write] adds at the end. *)
Hypothesis append_at_end : forall fs p d b,
  fs_open_r fs p = Some d -> fs_open_r (fs_append fs p b) p = Some (bytes_app d b).

(** OpenSSL's PEM readers return the first block of the kind asked for
    and pass over blocks of another kind. *)
Hypothesis load_privatekey_first : forall k rest,
  load_privatekey (bytes_app (dump_privatekey k) rest) = Some k.

Hypothesis load_certificate_skips_key : forall k rest,
  load_certificate (bytes_app (dump_privatekey k) rest) = load_certificate rest.

Hypothesis load_certificate_dump : forall c,
  load_certificate (dump_certificate c) = Some c.

Lemma write_pem_content filename cert key w u w' :
  write_pem filename cert key w = (Val u, w') ->
  fs_open_r (w_fs w') filename =
    Some (bytes_app (dump_privatekey key) (dump_certificate cert)).
Proof.
  intros H. apply write_pem_inv in H as (fs1 & Hopen & Hfs & _).
  rewrite Hfs.
  erewrite append_at_end; [reflexivity|].
  erewrite append_at_end by (eapply open_w_truncates; exact Hopen).
  now rewrite bytes_app_empty_l.
Qed.

Lemma read_pem_of_written filename cert key w :
  fs_open_r (w_fs w) filename =
    Some (bytes_app (dump_privatekey key) (dump_certificate cert)) ->
  read_pem filename w =
    (Val (cert, key),
     log ev_load_privatekey
       (log ev_load_certificate (log (ev_open filename "r") w))).
Proof.
  intros H. rewrite (read_pem_run _ _ _ H). cbn.
  rewrite load_certificate_skips_key, load_certificate_dump.
  now rewrite load_privatekey_first.
Qed.

(** C4.  A file written by [write_pem] holds the key's PEM block
    immediately followed by the certificate's, and nothing else;
    [read_pem] of that file, in any later world where the file system is
    as [write_pem] left it, returns the certificate and the key that were
    written, so their encodings and the key's modulus are the originals',
    and reading changes nothing but the trace. *)
Theorem pem_round_trip filename cert key w u w1 :
  write_pem filename cert key w = (Val u, w1) ->
  fs_open_r (w_fs w1) filename =
    Some (bytes_app (dump_privatekey key) (dump_certificate cert)) /\
  forall wr, w_fs wr = w_fs w1 ->
    exists wr',
      read_pem filename wr = (Val (cert, key), wr') /\
      only_logged wr wr'
        [ev_open filename "r"; ev_load_certificate; ev_load_privatekey].
Proof.
  intros Hw. pose proof (write_pem_content _ _ _ _ _ _ Hw) as Hc.
  split; [exact Hc|].
  intros wr Hfs. rewrite <- Hfs in Hc.
  rewrite (read_pem_of_written _ _ _ _ Hc).
  eexists. split; [reflexivity|].
  repeat split. cbn. now rewrite <- !app_assoc.
Qed.

(** ** Issuing a host certificate *)

(** A signature verifies under the public half of the key that made it. *)
Hypothesis sign_then_verify : forall k d m s,
  pkey_sign k d m = Some s -> pkey_verify (pkey_public k) d m s = true.

Lemma generate_host_cert_inv host root_cert root_key path w cert key w' :
  generate_host_cert host root_cert root_key path w = (Val (cert, key), w') ->
  exists e1 sreq tmpl wa wb s,
    pkey_generate TYPE_RSA 2048 (w_entropy w) = (Some key, e1) /\
    name_entry_ok host = true /\
    pkey_sign key "sha1"
      (X509Req_tbs {| r_subject := {| CN := Some host |};
                      r_pubkey := Some (pkey_public key);
                      r_signature := None |}) = Some sreq /\
    wa = log (ev_sign "sha1")
           (with_entropy e1 (log (ev_generate_key TYPE_RSA 2048) w)) /\
    _make_cert host wa = (Val tmpl, wb) /\
    pkey_sign root_key "sha1"
      (X509_tbs (set_pubkey (set_issuer tmpl (get_subject root_cert))
                            (pkey_public key))) = Some s /\
    cert = set_signature
             (set_pubkey (set_issuer tmpl (get_subject root_cert))
                         (pkey_public key))
             (Some ("sha1", s)) /\
    write_pem path cert key (log (ev_sign "sha1") wb) = (Val tt, w').
Proof.
  intros H. unfold generate_host_cert in H.
  apply bind_inv_val in H as (k & w1 & Hk & H).
  apply generate_key_inv in Hk as (e1 & Hgen & ->).
  apply bind_inv_val in H as (r1 & w2 & Hr1 & H).
  apply req_set_CN_inv in Hr1 as (Hok & -> & ->).
  apply bind_inv_val in H as (r2 & w3 & Hr2 & H).
  pose proof Hr2 as Hr2'.
  apply req_sign_inv in Hr2' as (sreq & Hsreq & Hpub & ->).
  apply bind_inv_val in H as (tmpl & wb & Htmpl & H).
  apply bind_inv_val in H as (pub & w4 & Hget & H).
  unfold req_get_pubkey in Hget.
  apply of_option_inv_val in Hget as (Hget & ->).
  rewrite Hpub in Hget. cbn in Hget. inversion Hget; subst pub; clear Hget.
  apply bind_inv_val in H as (c & w5 & Hsign & H).
  apply sign_inv in Hsign as (s & Hs & -> & ->).
  apply bind_inv_val in H as ([] & w6 & Hwrite & H).
  inversion H; subst; clear H.
  exists e1, sreq, tmpl,
    (log (ev_sign "sha1")
       (with_entropy e1 (log (ev_generate_key TYPE_RSA 2048) w))), wb, s.
  repeat split; assumption.
Qed.


Lemma generate_host_cert_props host root_cert root_key path w cert key w' :
  generate_host_cert host root_cert root_key path w = (Val (cert, key), w') ->
  x_issuer cert = x_subject root_cert /\
  x_subject cert = {| CN := Some host |} /\
  x_pubkey cert = Some (pkey_public key) /\
  fst (pkey_generate TYPE_RSA 2048 (w_entropy w)) = Some key /\
  (exists s, x_signature cert = Some ("sha1", s) /\
             pkey_sign root_key "sha1" (X509_tbs cert) = Some s) /\
  X509_verify cert (pkey_public root_key) = true.
Proof.
  intros H.
  apply generate_host_cert_inv in H
    as (e1 & sreq & tmpl & wa & wb & s & Hgen & Hok & _ & _ & Htmpl & Hs & -> & _).
  apply make_cert_inv in Htmpl as (_ & Ht & _).
  destruct Ht as (_ & _ & Hsubj & _).
  repeat split.
  - cbn. exact Hsubj.
  - now rewrite Hgen.
  - exists s. split; [reflexivity|]. rewrite tbs_set_signature. exact Hs.
  - unfold X509_verify. cbn [x_signature set_signature].
    rewrite tbs_set_signature. now apply sign_then_verify.
Qed.


(** ** Creating or loading the root *)

(** A file that opens for reading exists. *)
Hypothesis readable_exists : forall fs p d,
  fs_open_r fs p = Some d -> path_exists fs p = true.

(** A generated key has the size asked for. *)
Hypothesis generated_bits : forall t bits e k e',
  pkey_generate t bits e = (Some k, e') -> pkey_bits k = bits.

Lemma generate_ca_root_loads ca_file certname w :
  path_exists (w_fs w) (py_default ca_file CERT_CA_FILE) = true ->
  generate_ca_root ca_file certname false w =
    match read_pem (py_default ca_file CERT_CA_FILE)
            (log (ev_path_exists (py_default ca_file CERT_CA_FILE)) w) with
    | (Val (cert, key), w') => (Val (false, cert, key), w')
    | (Exn e, w') => (Exn e, w')
    end.
Proof.
  intros Hex. unfold generate_ca_root, os_path_exists, bind, emit. cbn.
  rewrite Hex.
  destruct (read_pem _ _) as [[[c k]|e] w']; reflexivity.
Qed.

Lemma generate_ca_root_inv ca_file certname overwrite w created cert key w' :
  generate_ca_root ca_file certname overwrite w = (Val (created, cert, key), w') ->
  let p := py_default ca_file CERT_CA_FILE in
  let w0 := if overwrite then w else log (ev_path_exists p) w in
  (created = false /\ overwrite = false /\ path_exists (w_fs w) p = true /\
   read_pem p w0 = (Val (cert, key), w')) \/
  (created = true /\ (overwrite = true \/ path_exists (w_fs w) p = false) /\
   exists e1 tmpl wb s,
     pkey_generate TYPE_RSA 2048 (w_entropy w) = (Some key, e1) /\
     _make_cert (py_default certname CERT_NAME)
       (with_entropy e1 (log (ev_generate_key TYPE_RSA 2048) w0)) = (Val tmpl, wb) /\
     let c2 := set_pubkey (set_issuer tmpl (get_subject tmpl)) (pkey_public key) in
     let c3 := add_extensions c2 (ca_extensions c2) in
     pkey_sign key "sha1" (X509_tbs c3) = Some s /\
     cert = set_signature c3 (Some ("sha1", s)) /\
     write_pem p cert key (log (ev_sign "sha1") wb) = (Val tt, w')).
Proof.
  intros H p w0. unfold generate_ca_root in H. fold p in H.
  apply bind_inv_val in H as (found & w1 & Hfound & H).
  assert (Hw1 : w1 = w0 /\
                ((found = true /\ overwrite = false /\ path_exists (w_fs w) p = true) \/
                 (found = false /\ (overwrite = true \/ path_exists (w_fs w) p = false)))).
  { subst w0. destruct overwrite; cbn in Hfound.
    - inversion Hfound; subst. split; [reflexivity|]. right. auto.
    - unfold os_path_exists, bind, emit in Hfound. cbn in Hfound.
      inversion Hfound; subst. split; [reflexivity|].
      destruct (path_exists (w_fs w) p); [left|right]; auto. }
  destruct Hw1 as [-> [(-> & Hov & Hex) | (-> & Hbranch)]].
  - left. apply bind_inv_val in H as ([c k] & w2 & Hread & H).
    inversion H; subst; clear H. auto.
  - right.
    apply bind_inv_val in H as (k & w2 & Hk & H).
    apply generate_key_inv in Hk as (e1 & Hgen & ->).
    apply bind_inv_val in H as (tmpl & wb & Htmpl & H).
    apply bind_inv_val in H as (c & w3 & Hsign & H).
    apply sign_inv in Hsign as (s & Hs & -> & ->).
    apply bind_inv_val in H as ([] & w4 & Hwrite & H).
    inversion H; subst; clear H.
    split; [reflexivity|]. split; [exact Hbranch|].
    exists e1, tmpl, wb, s.
    assert (He : w_entropy w0 = w_entropy w) by (subst w0; now destruct overwrite).
    rewrite <- He. repeat split; assumption.
Qed.

Lemma generate_ca_root_creates ca_file certname overwrite w key e1 :
  let p := py_default ca_file CERT_CA_FILE in
  overwrite = true \/ path_exists (w_fs w) p = false ->
  pkey_generate TYPE_RSA 2048 (w_entropy w) = (Some key, e1) ->
  name_entry_ok (py_default certname CERT_NAME) = true ->
  (forall m, is_Some (pkey_sign key "sha1" m)) ->
  is_Some (fs_open_w (w_fs w) p) ->
  (forall fs b, fs_write_fails fs p b = None) ->
  exists cert w',
    generate_ca_root ca_file certname overwrite w = (Val (true, cert, key), w').
Proof.
  intros p Hbranch Hgen Hok Hsk [fs1 Hopen] Hwr.
  unfold generate_ca_root. fold p.
  set (w0 := if overwrite then w else log (ev_path_exists p) w).
  assert (Hfound : (if negb overwrite then os_path_exists p else ret false) w
                   = (Val false, w0)).
  { subst w0. destruct overwrite; cbn; [reflexivity|].
    destruct Hbranch as [Hb|Hb]; [discriminate|].
    unfold os_path_exists, bind, emit. cbn. now rewrite Hb. }
  rewrite (bind_val _ _ _ _ _ Hfound).
  assert (He : w_entropy w0 = w_entropy w) by (subst w0; now destruct overwrite).
  assert (Hf : w_fs w0 = w_fs w) by (subst w0; now destruct overwrite).
  rewrite <- He in Hgen.
  rewrite (bind_val _ _ _ _ _ (generate_key_run _ _ _ _ _ Hgen)).
  destruct (make_cert_returns (py_default certname CERT_NAME)
    (with_entropy e1 (log (ev_generate_key TYPE_RSA 2048) w0)) Hok)
    as (tmpl & wb & Htmpl).
  rewrite (bind_val _ _ _ _ _ Htmpl).
  set (c2 := set_pubkey (set_issuer tmpl (get_subject tmpl)) (pkey_public key)).
  destruct (Hsk (X509_tbs (add_extensions c2 (ca_extensions c2)))) as [s Hs].
  rewrite (bind_val _ _ _ _ _ (sign_run _ _ _ _ _ Hs)).
  apply make_cert_inv in Htmpl as (_ & _ & Hfs & _).
  erewrite (bind_val _ _ _ tt).
  2:{ apply write_pem_returns with (fs1 := fs1).
      - cbn. rewrite Hfs. cbn. rewrite Hf. exact Hopen.
      - split; apply Hwr. }
  eexists _, _. reflexivity.
Qed.

(** C3.  For a root path [path] and a common name [name], both non-empty:
    - when [overwrite] is false and [path] exists, the call decodes the
      file at [path] and returns [created = false] with the certificate
      and key stored there, calling nothing but the existence check on
      [path], the open of [path] and the two PEM readers;
    - otherwise a call that returns has [created = true]; its key is the
      RSA 2048 key freshly generated from the entropy pool; its
      certificate is self-signed (issuer = its own subject, CN [name], the
      key's public half, a signature that verifies under it) and carries
      exactly the three CA extensions; the one file opened is [path], for
      writing, and it then holds the key followed by the certificate; a
      second call without [overwrite] returns [created = false] with this
      same certificate and key;
    - that call returns whenever OpenSSL generates the key, accepts the
      name and signs, [path] opens for writing and no write to it fails. *)
Theorem generate_ca_root_loads_or_creates path name w :
  path <> "" -> name <> "" ->
  (path_exists (w_fs w) path = true ->
   forall data cert key,
     fs_open_r (w_fs w) path = Some data ->
     load_certificate data = Some cert ->
     load_privatekey data = Some key ->
     exists w',
       generate_ca_root (Some path) (Some name) false w
         = (Val (false, cert, key), w') /\
       only_logged w w'
         [ev_path_exists path; ev_open path "r"; ev_load_certificate;
          ev_load_privatekey]) /\
  (forall overwrite,
     overwrite = true \/ path_exists (w_fs w) path = false ->
     (forall created cert key w',
        generate_ca_root (Some path) (Some name) overwrite w
          = (Val (created, cert, key), w') ->
        created = true /\
        fst (pkey_generate TYPE_RSA 2048 (w_entropy w)) = Some key /\
        pkey_bits key = 2048 /\
        x_issuer cert = x_subject cert /\
        x_subject cert = {| CN := Some name |} /\
        x_pubkey cert = Some (pkey_public key) /\
        x_extensions cert =
          [ {| ext_name := "basicConstraints"; ext_critical := true;
               ext_value := "CA:TRUE, pathlen:0"; ext_subject_key := None |};
            {| ext_name := "keyUsage"; ext_critical := true;
               ext_value := "keyCertSign, cRLSign"; ext_subject_key := None |};
            {| ext_name := "subjectKeyIdentifier"; ext_critical := false;
               ext_value := "hash";
               ext_subject_key := Some (pkey_public key) |} ] /\
        X509_verify cert (pkey_public key) = true /\
        w_trace w' = w_trace w ++
          (if overwrite then [] else [ev_path_exists path]) ++
          [ev_generate_key TYPE_RSA 2048; ev_randint 0 (2 ^ 64 - 1);
           ev_sign "sha1"; ev_open path "wb+"; ev_write path; ev_write path] /\
        fs_open_r (w_fs w') path =
          Some (bytes_app (dump_privatekey key) (dump_certificate cert)) /\
        exists w'',
          generate_ca_root (Some path) (Some name) false w'
            = (Val (false, cert, key), w'') /\
          w_fs w'' = w_fs w') /\
     (forall key e1,
        pkey_generate TYPE_RSA 2048 (w_entropy w) = (Some key, e1) ->
        name_entry_ok name = true ->
        (forall m, is_Some (pkey_sign key "sha1" m)) ->
        is_Some (fs_open_w (w_fs w) path) ->
        (forall fs b, fs_write_fails fs path b = None) ->
        exists cert w',
          generate_ca_root (Some path) (Some name) overwrite w
            = (Val (true, cert, key), w'))).
Proof.
  intros Hpath Hname.
  pose proof (py_default_truthy path CERT_CA_FILE Hpath) as Ep.
  pose proof (py_default_truthy name CERT_NAME Hname) as En.
  split.
  - intros Hex data cert key Hopen Hc Hk.
    rewrite generate_ca_root_loads by (rewrite Ep; exact Hex).
    rewrite Ep.
    rewrite (read_pem_run path (log (ev_path_exists path) w) data) by exact Hopen.
    cbn. rewrite Hc, Hk. eexists. split; [reflexivity|].
    repeat split. cbn. now rewrite <- !app_assoc.
  - intros overwrite Hbranch. split.
    + intros created cert key w' H.
      apply generate_ca_root_inv in H. rewrite Ep, En in H.
      destruct H as [(_ & Hov & Hex & _) | (-> & _ & H)].
      { destruct Hbranch; congruence. }
      destruct H as (e1 & tmpl & wb & s & Hgen & Htmpl & Hs & -> & Hwrite).
      apply make_cert_inv in Htmpl as (_ & Ht & Hafter).
      destruct Ht as (_ & _ & Hsubj & _ & _ & _ & _ & Hexts & _).
      destruct Hafter as (_ & _ & _ & _ & Htb).
      pose proof (write_pem_content _ _ _ _ _ _ Hwrite) as Hcontent.
      apply write_pem_inv in Hwrite as (_ & _ & _ & _ & _ & _ & Htw).
      split; [reflexivity|].
      split; [now rewrite Hgen|].
      split; [exact (generated_bits _ _ _ _ _ Hgen)|].
      split; [reflexivity|].
      split; [exact Hsubj|].
      split; [reflexivity|].
      split; [cbn; now rewrite Hexts|].
      split.
      { unfold X509_verify. cbn [x_signature set_signature].
        rewrite tbs_set_signature. now apply sign_then_verify. }
      split.
      { rewrite Htw. cbn. rewrite Htb. cbn.
        destruct overwrite; cbn; now rewrite <- !app_assoc. }
      split; [exact Hcontent|].
      rewrite generate_ca_root_loads
        by (rewrite Ep; exact (readable_exists _ _ _ Hcontent)).
      rewrite Ep.
      rewrite (read_pem_of_written path _ key (log (ev_path_exists path) w'))
        by exact Hcontent.
      eexists. split; reflexivity.
    + intros key e1 Hgen Hok Hsk Hopen Hwr.
      apply generate_ca_root_creates with (e1 := e1);
        rewrite ?Ep, ?En; assumption.
Qed.

(** ** The certificate template *)

(** [random.randint(lo, hi)] returns an integer of the closed range. *)
Hypothesis randint_in_range : forall lo hi s,
  lo <= hi -> lo <= fst (randint lo hi s) <= hi.

(** C5.  The version clause of the claim fails: [_make_cert] calls
    [set_version(3)], which stores 3 in the zero-based version field, so
    the certificate is not an X.509 v3 certificate (field 2) nor of any
    version X.509 defines.  The other clauses hold.  The fixed duration is
    100 * 365 * 24 * 60 * 60 seconds.  A certificate returned by
    [_make_cert certname] has as serial the value
    [random.randint(0, 2^64 - 1)] returned, unchanged, so it lies in
    [0, 2^64) with the generator's distribution; its subject CN is
    [certname]; notBefore is the clock's reading when it was set and
    notAfter the clock's next reading plus the duration; issuer, public
    key, extensions and signature are left unset.  [_make_cert] returns
    exactly when OpenSSL accepts the name.  The root that
    [generate_ca_root] creates and every certificate that
    [generate_host_cert] returns carry the fields of such a template,
    built by [_make_cert] in the course of the call, the version field
    included. *)
Theorem make_cert_template :
  CERT_DURATION = 3153600000 /\
  version_of_field 2 = Some X509_v3 /\
  (forall certname w cert w',
     _make_cert certname w = (Val cert, w') ->
     x_version cert = 3 /\
     version_of_field (x_version cert) = None /\
     is_template certname w cert /\ 0 <= x_serial cert < 2 ^ 64) /\
  (forall certname w,
     name_entry_ok certname = true <->
     exists cert w', _make_cert certname w = (Val cert, w')) /\
  (forall ca_file certname overwrite w cert key w',
     generate_ca_root ca_file certname overwrite w = (Val (true, cert, key), w') ->
     version_of_field (x_version cert) = None /\
     exists w1 tmpl w2,
       _make_cert (py_default certname CERT_NAME) w1 = (Val tmpl, w2) /\
       same_template tmpl cert) /\
  (forall host root_cert root_key path w cert key w',
     generate_host_cert host root_cert root_key path w = (Val (cert, key), w') ->
     version_of_field (x_version cert) = None /\
     exists w1 tmpl w2,
       _make_cert host w1 = (Val tmpl, w2) /\ same_template tmpl cert).
Proof.
  split; [reflexivity|]. split; [reflexivity|].
  split; [|split; [|split]].
  - intros certname w cert w' H.
    apply make_cert_inv in H as (_ & Ht & _).
    pose proof Ht as (Hv & Hs & _).
    split; [exact Hv|]. split; [now rewrite Hv|].
    split; [exact Ht|].
    rewrite Hs.
    pose proof (randint_in_range 0 (2 ^ 64 - 1) (w_random w)) as Hr.
    lia.
  - intros certname w. split.
    + apply make_cert_returns.
    + intros (cert & w' & H). now apply make_cert_inv in H.
  - intros ca_file certname overwrite w cert key w' H.
    apply generate_ca_root_inv in H.
    destruct H as [(Hc & _) | (_ & _ & H)]; [discriminate|].
    destruct H as (e1 & tmpl & wb & s & _ & Htmpl & _ & -> & _).
    split.
    { apply make_cert_inv in Htmpl as (_ & (Hv & _) & _). cbn. now rewrite Hv. }
    eexists _, tmpl, wb. split; [exact Htmpl|]. repeat split.
  - intros host root_cert root_key path w cert key w' H.
    apply generate_host_cert_inv in H
      as (e1 & sreq & tmpl & wa & wb & s & _ & _ & _ & _ & Htmpl & _ & -> & _).
    split.
    { apply make_cert_inv in Htmpl as (_ & (Hv & _) & _). cbn. now rewrite Hv. }
    exists wa, tmpl, wb. split; [exact Htmpl|]. repeat split.
Qed.

(** ** A malformed root file *)

(** C7.  When the root path exists, opens for reading, and its content
    lacks a well-formed certificate or a well-formed private key, then
    without [overwrite] [generate_ca_root] raises OpenSSL's error; the
    file system, the clock and both generators are as before, and the only
    calls made are the existence check, one open for reading and the PEM
    readers: nothing is opened for writing, written or generated. *)
Theorem generate_ca_root_malformed ca_file certname w data :
  let p := py_default ca_file CERT_CA_FILE in
  path_exists (w_fs w) p = true ->
  fs_open_r (w_fs w) p = Some data ->
  load_certificate data = None \/ load_privatekey data = None ->
  exists w' evs,
    generate_ca_root ca_file certname false w = (Exn crypto_Error, w') /\
    only_logged w w' ([ev_path_exists p; ev_open p "r"] ++ evs) /\
    (evs = [ev_load_certificate] \/
     evs = [ev_load_certificate; ev_load_privatekey]).
Proof.
  intros p Hex Hopen Hbad.
  rewrite (generate_ca_root_loads _ _ _ Hex). fold p.
  rewrite (read_pem_run p (log (ev_path_exists p) w) data) by exact Hopen.
  cbn.
  destruct (load_certificate data) as [c|] eqn:Hc.
  - destruct Hbad as [Hbad|Hbad]; [discriminate|]. rewrite Hbad.
    eexists _, [ev_load_certificate; ev_load_privatekey].
    split; [reflexivity|]. split; [|now right].
    repeat split. cbn. now rewrite <- !app_assoc.
  - eexists _, [ev_load_certificate].
    split; [reflexivity|]. split; [|now left].
    repeat split. cbn. now rewrite <- !app_assoc.
Qed.

(** ** The per-host cache *)

Lemma get_cert_for_host_hit self host w :
  let path := host_filename_of (self_certs_dir self) host in
  path_exists (w_fs w) path = true ->
  get_cert_for_host self host false w =
    (Val (false, path), log (ev_path_exists path) w).
Proof.
  intros path Hex. unfold get_cert_for_host. fold path. clearbody path.
  unfold os_path_exists, bind, emit. cbn. now rewrite Hex.
Qed.

Lemma get_cert_for_host_inv self host overwrite w created path w' :
  get_cert_for_host self host overwrite w = (Val (created, path), w') ->
  path = host_filename_of (self_certs_dir self) host /\
  let w0 := if overwrite then w else log (ev_path_exists path) w in
  ((created = false /\ overwrite = false /\
    path_exists (w_fs w) path = true /\ w' = w0) \/
   (created = true /\ (overwrite = true \/ path_exists (w_fs w) path = false) /\
    exists cert key,
      generate_host_cert host (self_cert self) (self_key self) path w0
        = (Val (cert, key), w'))).
Proof.
  intros H. unfold get_cert_for_host in H.
  remember (host_filename_of (self_certs_dir self) host) as p eqn:Hp.
  clear Hp.
  apply bind_inv_val in H as (found & w1 & Hfound & H).
  assert (Hw1 : w1 = (if overwrite then w else log (ev_path_exists p) w) /\
                ((found = true /\ overwrite = false /\ path_exists (w_fs w) p = true) \/
                 (found = false /\ (overwrite = true \/ path_exists (w_fs w) p = false)))).
  { destruct overwrite; cbn in Hfound.
    - inversion Hfound; subst. split; [reflexivity|]. right. auto.
    - unfold os_path_exists, bind, emit in Hfound. cbn in Hfound.
      inversion Hfound; subst. split; [reflexivity|].
      destruct (path_exists (w_fs w) p); [left|right]; auto. }
  destruct Hw1 as [-> [(-> & Hov & Hex) | (-> & Hbranch)]].
  - inversion H; subst; clear H. split; [reflexivity|]. left. auto.
  - apply bind_inv_val in H as ([c k] & w2 & Hgen & H).
    inversion H; subst; clear H. split; [reflexivity|]. right.
    split; [reflexivity|]. split; [exact Hbranch|]. now exists c, k.
Qed.

(** What one issuance draws and which calls it makes. *)
Lemma generate_host_cert_draws host root_cert root_key path w cert key w' :
  generate_host_cert host root_cert root_key path w = (Val (cert, key), w') ->
  x_serial cert = fst (randint 0 (2 ^ 64 - 1) (w_random w)) /\
  w_random w' = snd (randint 0 (2 ^ 64 - 1) (w_random w)) /\
  pkey_generate TYPE_RSA 2048 (w_entropy w) = (Some key, w_entropy w') /\
  w_trace w' = w_trace w ++
    [ev_generate_key TYPE_RSA 2048; ev_sign "sha1";
     ev_randint 0 (2 ^ 64 - 1); ev_sign "sha1";
     ev_open path "wb+"; ev_write path; ev_write path].
Proof.
  intros H.
  apply generate_host_cert_inv in H
    as (e1 & sreq & tmpl & wa & wb & s & Hgen & _ & _ & -> & Htmpl & _ & -> & Hw).
  apply write_pem_inv in Hw as (fs1 & _ & _ & _ & Hr & He & Ht).
  apply make_cert_inv in Htmpl as (_ & Htm & Hafter).
  destruct Htm as (_ & Hserial & _).
  destruct Hafter as (_ & He' & Hr' & _ & Ht').
  cbn in *. rewrite Hr, He, Hr', He', Ht, Ht'.
  repeat split; try assumption.
  now rewrite <- !app_assoc.
Qed.

(** What one issuance leaves in the file. *)
Lemma generate_host_cert_content host root_cert root_key path w cert key w' :
  generate_host_cert host root_cert root_key path w = (Val (cert, key), w') ->
  fs_open_r (w_fs w') path =
    Some (bytes_app (dump_privatekey key) (dump_certificate cert)).
Proof.
  intros H.
  apply generate_host_cert_inv in H
    as (e1 & sreq & tmpl & wa & wb & s & _ & _ & _ & _ & _ & _ & _ & Hw).
  exact (write_pem_content _ _ _ _ _ _ Hw).
Qed.

(** C2.  If a call [get_cert_for_host host] without [overwrite] returns,
    a second such call right after it returns [created = false] and the
    same path; that call makes a single existence check and nothing else
    (no key is generated, nothing is signed, nothing is opened or
    written), and leaves the file system, hence the file's content, the
    clock and both generators as the first call left them. *)
Theorem get_cert_for_host_idempotent self host w created path w1 :
  get_cert_for_host self host false w = (Val (created, path), w1) ->
  exists w2,
    get_cert_for_host self host false w1 = (Val (false, path), w2) /\
    path = host_filename_of (self_certs_dir self) host /\
    only_logged w1 w2 [ev_path_exists path] /\
    fs_open_r (w_fs w2) path = fs_open_r (w_fs w1) path /\
    path_exists (w_fs w1) path = true.
Proof.
  intros H. apply get_cert_for_host_inv in H as (-> & H).
  set (path := host_filename_of (self_certs_dir self) host) in *.
  assert (Hex : path_exists (w_fs w1) path = true).
  { cbn in H. destruct H as [(_ & _ & Hex & ->) | (_ & _ & cert & key & Hgen)].
    - exact Hex.
    - apply generate_host_cert_content in Hgen.
      exact (readable_exists _ _ _ Hgen). }
  exists (log (ev_path_exists path) w1).
  split; [now apply get_cert_for_host_hit|].
  repeat split. exact Hex.
Qed.

(** OpenSSL does not generate the same key twice in a row: two keys
    generated one after the other have different public halves. *)
Hypothesis generated_keys_differ : forall t1 bits1 t2 bits2 e k1 e1 k2 e2,
  pkey_generate t1 bits1 e = (Some k1, e1) ->
  pkey_generate t2 bits2 e1 = (Some k2, e2) ->
  pkey_public k1 <> pkey_public k2.

(** C8, as the code has it.  Two calls [get_cert_for_host host] with
    [overwrite], one after the other, each return [created = true] and
    the same path, and each leaves there a key followed by a certificate
    of its own making.  The key is the next RSA 2048 key from the entropy
    pool: the two keys differ, and so do the public keys of the two
    certificates.  The serial is the next value of [random.randint]: the
    two serials differ exactly when these two successive values differ,
    and nothing in the code compares them.  Both certificates are issued
    under the manager's root subject with a signature that verifies under
    the root key's public half. *)
Theorem get_cert_for_host_overwrite_twice self host w r1 w1 r2 w2 :
  get_cert_for_host self host true w = (Val r1, w1) ->
  get_cert_for_host self host true w1 = (Val r2, w2) ->
  let path := host_filename_of (self_certs_dir self) host in
  let draw1 := randint 0 (2 ^ 64 - 1) (w_random w) in
  let draw2 := randint 0 (2 ^ 64 - 1) (snd draw1) in
  r1 = (true, path) /\ r2 = (true, path) /\
  exists cert1 key1 e1 cert2 key2 e2,
    fs_open_r (w_fs w1) path =
      Some (bytes_app (dump_privatekey key1) (dump_certificate cert1)) /\
    fs_open_r (w_fs w2) path =
      Some (bytes_app (dump_privatekey key2) (dump_certificate cert2)) /\
    x_serial cert1 = fst draw1 /\ x_serial cert2 = fst draw2 /\
    (x_serial cert1 <> x_serial cert2 <-> fst draw1 <> fst draw2) /\
    pkey_generate TYPE_RSA 2048 (w_entropy w) = (Some key1, e1) /\
    pkey_generate TYPE_RSA 2048 e1 = (Some key2, e2) /\
    key1 <> key2 /\
    x_pubkey cert1 = Some (pkey_public key1) /\
    x_pubkey cert2 = Some (pkey_public key2) /\
    x_pubkey cert1 <> x_pubkey cert2 /\
    x_issuer cert1 = x_subject (self_cert self) /\
    x_issuer cert2 = x_subject (self_cert self) /\
    X509_verify cert1 (pkey_public (self_key self)) = true /\
    X509_verify cert2 (pkey_public (self_key self)) = true.
Proof.
  intros H1 H2 path draw1 draw2.
  destruct r1 as [c1 p1], r2 as [c2 p2].
  apply get_cert_for_host_inv in H1 as (-> & H1).
  apply get_cert_for_host_inv in H2 as (-> & H2).
  fold path in H1, H2. cbn in H1, H2.
  destruct H1 as [(_ & Hf & _) | (-> & _ & cert1 & key1 & G1)]; [discriminate|].
  destruct H2 as [(_ & Hf & _) | (-> & _ & cert2 & key2 & G2)]; [discriminate|].
  split; [reflexivity|]. split; [reflexivity|].
  pose proof (generate_host_cert_draws _ _ _ _ _ _ _ _ G1)
    as (Hs1 & Hr1 & Hk1 & _).
  pose proof (generate_host_cert_draws _ _ _ _ _ _ _ _ G2)
    as (Hs2 & Hr2 & Hk2 & _).
  pose proof (generate_host_cert_content _ _ _ _ _ _ _ _ G1) as Hc1.
  pose proof (generate_host_cert_content _ _ _ _ _ _ _ _ G2) as Hc2.
  destruct (generate_host_cert_props _ _ _ _ _ _ _ _ G1)
    as (Hi1 & _ & Hp1 & _ & _ & Hv1).
  destruct (generate_host_cert_props _ _ _ _ _ _ _ _ G2)
    as (Hi2 & _ & Hp2 & _ & _ & Hv2).
  pose proof (generated_keys_differ _ _ _ _ _ _ _ _ _ Hk1 Hk2) as Hpub.
  exists cert1, key1, (w_entropy w1), cert2, key2, (w_entropy w2).
  rewrite Hr1 in Hs2. fold draw1 in Hs1, Hs2. fold draw2 in Hs2.
  split; [exact Hc1|]. split; [exact Hc2|].
  split; [exact Hs1|]. split; [exact Hs2|].
  split; [now rewrite Hs1, Hs2|].
  split; [exact Hk1|]. split; [exact Hk2|].
  split; [intros Heq; apply Hpub; now rewrite Heq|].
  split; [exact Hp1|]. split; [exact Hp2|].
  split; [rewrite Hp1, Hp2; intros Heq; apply Hpub; now inversion Heq|].
  repeat split; assumption.
Qed.

(** ** Constructing the manager *)

(** A directory just made exists. *)
Hypothesis mkdir_exists : forall fs p fs',
  fs_mkdir fs p = Some fs' -> path_exists fs' p = true.

Lemma init_no_file ca_file certs_dir w :
  fs_open_r (w_fs w) (py_default ca_file CERT_CA_FILE) = None ->
  __init__ ca_file certs_dir w =
    (Exn IOError, log (ev_open (py_default ca_file CERT_CA_FILE) "r") w).
Proof.
  intros H. unfold __init__.
  now rewrite (bind_exn _ _ _ _ _ (read_pem_no_file _ _ H)).
Qed.

Lemma init_inv ca_file certs_dir w self w' :
  __init__ ca_file certs_dir w = (Val self, w') ->
  let p := py_default ca_file CERT_CA_FILE in
  let d := py_default certs_dir CERTS_DIR in
  exists w1,
    read_pem p w = (Val (self_cert self, self_key self), w1) /\
    self_ca_file self = p /\ self_certs_dir self = d /\
    w_clock w' = w_clock w /\ w_random w' = w_random w /\
    w_entropy w' = w_entropy w /\
    ((path_exists (w_fs w) d = true /\ w_fs w' = w_fs w /\
      w_trace w' = w_trace w1 ++ [ev_path_exists d]) \/
     (path_exists (w_fs w) d = false /\ fs_mkdir (w_fs w) d = Some (w_fs w') /\
      w_trace w' = w_trace w1 ++ [ev_path_exists d; ev_mkdir d])).
Proof.
  intros H p d. unfold __init__ in H. fold p d in H. clearbody p d.
  apply bind_inv_val in H as ([c k] & w1 & Hread & H).
  pose proof Hread as Hread'.
  apply read_pem_inv in Hread' as (data & _ & _ & _ & Hfs & Hck & Hr & He & _).
  apply bind_inv_val in H as (found & w2 & Hfound & H).
  unfold os_path_exists, bind, emit in Hfound. cbn in Hfound.
  inversion Hfound; subst found w2; clear Hfound.
  apply bind_inv_val in H as ([] & w3 & Hmk & H).
  inversion H; subst; clear H. cbn.
  exists w1. split; [exact Hread|]. split; [reflexivity|]. split; [reflexivity|].
  rewrite Hfs in *.
  destruct (path_exists (w_fs w) d) eqn:Hex; cbn in Hmk.
  - inversion Hmk; subst; clear Hmk. cbn. repeat split; try assumption.
    left. repeat split; assumption.
  - unfold os_mkdir, bind, emit in Hmk. cbn in Hmk. rewrite Hfs in Hmk.
    destruct (fs_mkdir (w_fs w) d) as [fs'|] eqn:Hmkdir; [|discriminate].
    inversion Hmk; subst; clear Hmk. cbn. repeat split; try assumption.
    right. repeat split. now rewrite <- app_assoc.
Qed.

Lemma init_returns ca_file certs_dir w data cert key :
  let p := py_default ca_file CERT_CA_FILE in
  let d := py_default certs_dir CERTS_DIR in
  fs_open_r (w_fs w) p = Some data ->
  load_certificate data = Some cert ->
  load_privatekey data = Some key ->
  path_exists (w_fs w) d = true \/ is_Some (fs_mkdir (w_fs w) d) ->
  exists w',
    __init__ ca_file certs_dir w =
      (Val {| self_ca_file := p; self_certs_dir := d;
              self_cert := cert; self_key := key |}, w').
Proof.
  intros p d Hopen Hc Hk Hdir. unfold __init__. fold p d. clearbody p d.
  erewrite bind_val.
  2:{ rewrite (read_pem_run _ _ _ Hopen). cbn. rewrite Hc, Hk. reflexivity. }
  unfold os_path_exists, os_mkdir, bind, emit, ret. cbn.
  destruct (path_exists (w_fs w) d) eqn:Hex; cbn.
  - eexists. reflexivity.
  - destruct Hdir as [Hd | [fs' Hmk]]; [discriminate|].
    rewrite Hmk. eexists. reflexivity.
Qed.

(** C6, as the code has it.  Constructing the manager opens the root file
    once, for reading, and decodes it; it never creates the root:
    - when nothing exists at the root path the constructor raises
      [IOError], having done nothing but try to open the file;
    - when it returns, the certificate and key it holds are those decoded
      from the content of the root file, the cache directory exists
      (made by one [os.mkdir] when it was absent, the file system being
      otherwise untouched), no key was generated and nothing signed or
      written, and the trace shows the single open;
    - it returns whenever the file opens and decodes and the directory
      exists or can be made;
    - afterwards [get_cert_for_host] works from the certificate and key
      the manager holds: no call of it opens a file for reading. *)
Theorem init_reads_root ca_file certs_dir w :
  let p := py_default ca_file CERT_CA_FILE in
  let d := py_default certs_dir CERTS_DIR in
  (path_exists (w_fs w) p = false ->
   exists w', __init__ ca_file certs_dir w = (Exn IOError, w') /\
              only_logged w w' [ev_open p "r"]) /\
  (forall self w',
     __init__ ca_file certs_dir w = (Val self, w') ->
     self_ca_file self = p /\ self_certs_dir self = d /\
     (exists data,
        fs_open_r (w_fs w) p = Some data /\
        load_certificate data = Some (self_cert self) /\
        load_privatekey data = Some (self_key self)) /\
     path_exists (w_fs w') d = true /\
     (if path_exists (w_fs w) d then w_fs w' = w_fs w
      else fs_mkdir (w_fs w) d = Some (w_fs w')) /\
     w_clock w' = w_clock w /\ w_random w' = w_random w /\
     w_entropy w' = w_entropy w /\
     w_trace w' = w_trace w ++
       [ev_open p "r"; ev_load_certificate; ev_load_privatekey;
        ev_path_exists d] ++
       (if path_exists (w_fs w) d then [] else [ev_mkdir d])) /\
  (forall data cert key,
     fs_open_r (w_fs w) p = Some data ->
     load_certificate data = Some cert ->
     load_privatekey data = Some key ->
     path_exists (w_fs w) d = true \/ is_Some (fs_mkdir (w_fs w) d) ->
     exists w',
       __init__ ca_file certs_dir w =
         (Val {| self_ca_file := p; self_certs_dir := d;
                 self_cert := cert; self_key := key |}, w')) /\
  (forall self host overwrite w0 r w0',
     get_cert_for_host self host overwrite w0 = (Val r, w0') ->
     exists evs,
       w_trace w0' = w_trace w0 ++ evs /\
       forall q, ~ In (ev_open q "r") evs).
Proof.
  intros p d. split; [|split; [|split]]; cycle 3.
  - intros self host overwrite w0 [created path] w0' H.
    apply get_cert_for_host_inv in H as (_ & H). cbn in H.
    destruct H as [(_ & -> & _ & ->) | (_ & _ & cert & key & G)].
    + exists [ev_path_exists path]. split; [reflexivity|].
      intros q [Hq|[]]. discriminate Hq.
    + apply generate_host_cert_draws in G as (_ & _ & _ & Ht).
      destruct overwrite; cbn in Ht.
      * eexists. split; [exact Ht|].
        intros q Hq. cbn in Hq. intuition discriminate.
      * rewrite <- app_assoc in Ht. eexists. split; [exact Ht|].
        intros q Hq. cbn in Hq. intuition discriminate.
  - intros Hno.
    assert (Hopen : fs_open_r (w_fs w) p = None).
    { destruct (fs_open_r (w_fs w) p) as [data|] eqn:Ho; [|reflexivity].
      apply readable_exists in Ho. congruence. }
    rewrite (init_no_file _ _ _ Hopen). fold p.
    eexists. split; [reflexivity|]. repeat split.
  - intros self w' H. apply init_inv in H. fold p d in H.
    destruct H as (w1 & Hread & Hp & Hd & Hck & Hr & He & Hdir).
    apply read_pem_inv in Hread as (data & Hopen & Hc & Hk & _ & _ & _ & _ & Ht).
    split; [exact Hp|]. split; [exact Hd|].
    split; [now exists data|].
    destruct Hdir as [(Hex & Hfs & Ht') | (Hex & Hmk & Ht')]; rewrite Hex.
    + rewrite Hfs. repeat split; try assumption.
      rewrite Ht', Ht. now rewrite <- !app_assoc.
    + repeat split; try assumption.
      * exact (mkdir_exists _ _ _ Hmk).
      * rewrite Ht', Ht. now rewrite <- !app_assoc.
  - apply init_returns.
Qed.

(** ** Falsy arguments *)

(** C10.  An argument that is [None] or the empty string is replaced by
    the module's default, and the call works on the default: it runs
    exactly as if the default had been passed, and
    - the constructor with a falsy [ca_file] reads './pywb-ca.pem': it
      raises [IOError] when that file does not open, and when it returns
      the manager names that file and holds what was decoded from it; it
      returns whenever that file decodes and the cache directory exists
      or can be made;
    - the constructor with a falsy [certs_dir] uses './pywb-certs/': the
      manager names that directory, which exists afterwards, made by
      [os.mkdir] when it was absent;
    - [generate_ca_root] with a falsy [ca_file] works on './pywb-ca.pem':
      a root it creates is written there, a root it loads was decoded
      from there;
    - [generate_ca_root] with a falsy [certname] gives a root it creates
      the CN 'pywb https proxy replay CA'. *)
Theorem falsy_arguments_take_defaults (x : option string) :
  py_truth x = false ->
  (x = None \/ x = Some "") /\
  CERT_CA_FILE = "./pywb-ca.pem" /\
  CERTS_DIR = "./pywb-certs/" /\
  CERT_NAME = "pywb https proxy replay CA" /\
  (forall certs_dir w,
     __init__ x certs_dir w = __init__ (Some CERT_CA_FILE) certs_dir w /\
     (fs_open_r (w_fs w) CERT_CA_FILE = None ->
      __init__ x certs_dir w =
        (Exn IOError, log (ev_open CERT_CA_FILE "r") w)) /\
     (forall self w',
        __init__ x certs_dir w = (Val self, w') ->
        self_ca_file self = CERT_CA_FILE /\
        exists data,
          fs_open_r (w_fs w) CERT_CA_FILE = Some data /\
          load_certificate data = Some (self_cert self) /\
          load_privatekey data = Some (self_key self)) /\
     (forall data cert key,
        fs_open_r (w_fs w) CERT_CA_FILE = Some data ->
        load_certificate data = Some cert ->
        load_privatekey data = Some key ->
        path_exists (w_fs w) (py_default certs_dir CERTS_DIR) = true \/
          is_Some (fs_mkdir (w_fs w) (py_default certs_dir CERTS_DIR)) ->
        exists w',
          __init__ x certs_dir w =
            (Val {| self_ca_file := CERT_CA_FILE;
                    self_certs_dir := py_default certs_dir CERTS_DIR;
                    self_cert := cert; self_key := key |}, w'))) /\
  (forall ca_file w,
     __init__ ca_file x w = __init__ ca_file (Some CERTS_DIR) w /\
     (forall self w',
        __init__ ca_file x w = (Val self, w') ->
        self_certs_dir self = CERTS_DIR /\
        path_exists (w_fs w') CERTS_DIR = true /\
        (if path_exists (w_fs w) CERTS_DIR then w_fs w' = w_fs w
         else fs_mkdir (w_fs w) CERTS_DIR = Some (w_fs w')))) /\
  (forall certname overwrite w,
     generate_ca_root x certname overwrite w =
       generate_ca_root (Some CERT_CA_FILE) certname overwrite w /\
     (forall created cert key w',
        generate_ca_root x certname overwrite w
          = (Val (created, cert, key), w') ->
        if created
        then fs_open_r (w_fs w') CERT_CA_FILE =
               Some (bytes_app (dump_privatekey key) (dump_certificate cert))
        else exists data,
               fs_open_r (w_fs w) CERT_CA_FILE = Some data /\
               load_certificate data = Some cert /\
               load_privatekey data = Some key)) /\
  (forall ca_file overwrite w,
     generate_ca_root ca_file x overwrite w =
       generate_ca_root ca_file (Some CERT_NAME) overwrite w /\
     (forall cert key w',
        generate_ca_root ca_file x overwrite w = (Val (true, cert, key), w') ->
        x_subject cert = {| CN := Some CERT_NAME |})).
Proof.
  intros Hx. split; [now apply py_truth_falsy|].
  do 3 (split; [reflexivity|]).
  split; [|split; [|split]].
  - intros certs_dir w.
    pose proof (py_default_falsy x CERT_CA_FILE Hx) as Ex.
    split; [unfold __init__; now rewrite Ex|].
    split; [|split].
    + intros Hno. rewrite <- Ex in Hno. rewrite (init_no_file _ _ _ Hno).
      now rewrite Ex.
    + intros self w' H. apply init_inv in H. rewrite Ex in H.
      destruct H as (w1 & Hread & Hp & _).
      split; [exact Hp|].
      apply read_pem_inv in Hread as (data & Hopen & Hc & Hk & _).
      now exists data.
    + intros data cert key Hopen Hc Hk Hdir. rewrite <- Ex in Hopen.
      destruct (init_returns x certs_dir w data cert key Hopen Hc Hk Hdir)
        as (w' & H).
      exists w'. now rewrite Ex in H.
  - intros ca_file w.
    pose proof (py_default_falsy x CERTS_DIR Hx) as Ex.
    split; [unfold __init__; now rewrite Ex|].
    intros self w' H. apply init_inv in H. rewrite Ex in H.
    destruct H as (w1 & _ & _ & Hd & _ & _ & _ & Hdir).
    split; [exact Hd|].
    destruct Hdir as [(Hex & Hfs & _) | (Hex & Hmk & _)]; rewrite Hex.
    + split; [now rewrite Hfs | exact Hfs].
    + split; [exact (mkdir_exists _ _ _ Hmk) | exact Hmk].
  - intros certname overwrite w.
    pose proof (py_default_falsy x CERT_CA_FILE Hx) as Ex.
    split; [unfold generate_ca_root; now rewrite Ex|].
    intros created cert key w' H.
    apply generate_ca_root_inv in H. rewrite Ex in H.
    destruct H as [(-> & _ & _ & Hread) | (-> & _ & H)].
    + apply read_pem_inv in Hread as (data & Hopen & Hc & Hk & _).
      exists data. repeat split; try assumption.
      now destruct overwrite.
    + destruct H as (e1 & tmpl & wb & s & _ & _ & _ & _ & Hwrite).
      exact (write_pem_content _ _ _ _ _ _ Hwrite).
  - intros ca_file overwrite w.
    pose proof (py_default_falsy x CERT_NAME Hx) as Ex.
    split; [unfold generate_ca_root; now rewrite Ex|].
    intros cert key w' H.
    apply generate_ca_root_inv in H. rewrite Ex in H.
    destruct H as [(Hf & _) | (_ & _ & H)]; [discriminate Hf|].
    destruct H as (e1 & tmpl & wb & s & _ & Htmpl & _ & -> & _).
    apply make_cert_inv in Htmpl as (_ & (_ & _ & Hsubj & _) & _).
    exact Hsubj.
Qed.

End Guarantees.

(** ** The cache path *)

Section CachePath.
Context {P : Platform}.

Lemma append_cons c a b : String c a +:+ b = String c (a +:+ b).
Proof. reflexivity. Qed.

Lemma append_nil b : "" +:+ b = b.
Proof. reflexivity. Qed.

Lemma append_inj_l a x y : a +:+ x = a +:+ y -> x = y.
Proof.
  induction a as [|c a IH]; [trivial|].
  rewrite !append_cons. intros H. injection H as H. now apply IH.
Qed.

Lemma length_append a b :
  String.length (a +:+ b) = (String.length a + String.length b)%nat.
Proof.
  induction a as [|c a IH]; [reflexivity|].
  rewrite append_cons. cbn. now rewrite IH.
Qed.

Lemma append_inj_r a x y : x +:+ a = y +:+ a -> x = y.
Proof.
  revert y. induction x as [|c x IH]; intros [|c' y] H.
  - reflexivity.
  - apply (f_equal String.length) in H.
    rewrite append_nil, append_cons in H. cbn in H.
    rewrite length_append in H. lia.
  - apply (f_equal String.length) in H.
    rewrite append_nil, append_cons in H. cbn in H.
    rewrite length_append in H. lia.
  - rewrite !append_cons in H. injection H as Hc H.
    subst. f_equal. now apply IH.
Qed.

















End CachePath.

(** * Further properties *)

Section Further.
Context {P : Platform}.

(** ** Failed calls *)

Lemma bind_inv_exn {A B} (m : Py A) (k : A -> Py B) w e w' :
  bind m k w = (Exn e, w') ->
  m w = (Exn e, w') \/
  exists a w1, m w = (Val a, w1) /\ k a w1 = (Exn e, w').
Proof.
  unfold bind. destruct (m w) as [[a|e0] w1]; intros H.
  - right. now exists a, w1.
  - left. now inversion H.
Qed.

Lemma generate_key_raises t bits w e w' :
  PKey_generate_key t bits w = (Exn e, w') ->
  e = crypto_Error /\ w_fs w' = w_fs w /\
  w_trace w' = w_trace w ++ [ev_generate_key t bits].
Proof.
  unfold PKey_generate_key, bind, emit. cbn.
  destruct (pkey_generate t bits (w_entropy w)) as [[k|] e1]; cbn;
    intros H; inversion H; subst. repeat split.
Qed.

Lemma req_set_CN_raises r v w e w' :
  req_subject_set_CN r v w = (Exn e, w') -> e = crypto_Error /\ w' = w.
Proof.
  unfold req_subject_set_CN, X509Name_set_CN, bind.
  destruct (name_entry_ok v); cbn; intros H; inversion H; subst; auto.
Qed.

Lemma req_sign_raises r k d w e w' :
  req_sign r k d w = (Exn e, w') -> e = crypto_Error /\ w' = log (ev_sign d) w.
Proof.
  unfold req_sign, bind, emit. cbn.
  destruct (pkey_sign k d (X509Req_tbs r)); cbn;
    intros H; inversion H; subst; auto.
Qed.

Lemma sign_raises c k d w e w' :
  X509_sign c k d w = (Exn e, w') -> e = crypto_Error /\ w' = log (ev_sign d) w.
Proof.
  unfold X509_sign, bind, emit. cbn.
  destruct (pkey_sign k d (X509_tbs c)); cbn;
    intros H; inversion H; subst; auto.
Qed.

Lemma make_cert_raises certname w e w' :
  _make_cert certname w = (Exn e, w') ->
  e = crypto_Error /\ w_fs w' = w_fs w /\
  w_trace w' = w_trace w ++ [ev_randint 0 (2 ^ 64 - 1)].
Proof.
  unfold _make_cert, random_randint, subject_set_CN, X509Name_set_CN,
    gmtime_adj_notBefore, gmtime_adj_notAfter, bind, emit, ret, raise.
  cbn.
  destruct (randint 0 (2 ^ 64 - 1) (w_random w)) as [n r].
  destruct (name_entry_ok certname); cbn.
  - destruct (clock_time (w_clock w)) as [t1 c1]. cbn.
    destruct (clock_time c1) as [t2 c2]. cbn. discriminate.
  - intros H. inversion H; subst. repeat split.
Qed.

(** How [generate_host_cert] can fail: in OpenSSL, before any file is
    opened; at the open itself; or in a write to the file it has opened. *)
Lemma generate_host_cert_raises host root_cert root_key path w e w' :
  generate_host_cert host root_cert root_key path w = (Exn e, w') ->
  (w_fs w' = w_fs w /\
   exists evs,
     w_trace w' = w_trace w ++ evs /\
     (forall q, ~ In (ev_write q) evs) /\
     ((e = crypto_Error /\ forall q m, ~ In (ev_open q m) evs) \/
      (e = IOError /\ fs_open_w (w_fs w) path = None))) \/
  (e = IOError /\
   exists fs1 cert key,
     fs_open_w (w_fs w) path = Some fs1 /\
     write_failed fs1 path cert key (w_fs w')).
Proof.
  intros H. unfold generate_host_cert in H.
  apply bind_inv_exn in H as [H | (key & w1 & Hk & H)].
  { apply generate_key_raises in H as (-> & Hfs & Ht).
    left. split; [exact Hfs|]. eexists. split; [exact Ht|].
    split; [|left; split; [reflexivity|]]; cbn; intuition discriminate. }
  apply generate_key_inv in Hk as (e1 & _ & ->).
  apply bind_inv_exn in H as [H | (r1 & w2 & Hr1 & H)].
  { apply req_set_CN_raises in H as (-> & ->).
    left. split; [reflexivity|]. eexists. split; [reflexivity|].
    split; [|left; split; [reflexivity|]]; cbn; intuition discriminate. }
  apply req_set_CN_inv in Hr1 as (_ & -> & ->).
  apply bind_inv_exn in H as [H | (r2 & w3 & Hr2 & H)].
  { apply req_sign_raises in H as (-> & ->).
    left. split; [reflexivity|]. eexists.
    split; [cbn; rewrite <- ?app_assoc; reflexivity|].
    split; [|left; split; [reflexivity|]]; cbn; intuition discriminate. }
  pose proof Hr2 as Hr2'.
  apply req_sign_inv in Hr2' as (sreq & _ & Hpub & ->).
  apply bind_inv_exn in H as [H | (tmpl & wb & Htmpl & H)].
  { apply make_cert_raises in H as (-> & Hfs & Ht).
    left. split; [exact Hfs|]. eexists.
    split; [rewrite Ht; cbn; rewrite <- ?app_assoc; reflexivity|].
    split; [|left; split; [reflexivity|]]; cbn; intuition discriminate. }
  apply make_cert_inv in Htmpl as (_ & _ & Hfs & _ & _ & _ & Ht).
  apply bind_inv_exn in H as [H | (pub & w4 & Hget & H)].
  { unfold req_get_pubkey in H. rewrite Hpub in H. discriminate H. }
  unfold req_get_pubkey in Hget.
  apply of_option_inv_val in Hget as (_ & ->).
  apply bind_inv_exn in H as [H | (c & w5 & Hsign & H)].
  { apply sign_raises in H as (-> & ->).
    left. split; [exact Hfs|]. eexists.
    split; [cbn; rewrite Ht; cbn; rewrite <- ?app_assoc; reflexivity|].
    split; [|left; split; [reflexivity|]]; cbn; intuition discriminate. }
  apply sign_inv in Hsign as (s & _ & -> & ->).
  apply bind_inv_exn in H as [H | ([] & w6 & _ & H)]; [|discriminate H].
  apply write_pem_raises in H
    as (-> & _ & _ & _ & [(Hopen & ->) | (fs1 & Hopen & Hbad)]);
    cbn in Hopen; rewrite Hfs in Hopen; cbn in Hopen.
  - left. split; [exact Hfs|]. eexists.
    split; [cbn; rewrite Ht; cbn; rewrite <- ?app_assoc; reflexivity|].
    split; [|right; split; [reflexivity | exact Hopen]].
    cbn. intuition discriminate.
  - right. split; [reflexivity|]. eexists fs1, _, key.
    split; [exact Hopen | exact Hbad].
Qed.

Lemma read_pem_raises filename w e w' :
  read_pem filename w = (Exn e, w') ->
  w_fs w' = w_fs w /\
  (exists evs, w_trace w' = w_trace w ++ ev_open filename "r" :: evs /\
               forall q m, ~ In (ev_open q m) evs /\ ~ In (ev_write q) evs) /\
  ((e = IOError /\ fs_open_r (w_fs w) filename = None) \/
   (e = crypto_Error /\
    exists data, fs_open_r (w_fs w) filename = Some data /\
      (load_certificate data = None \/ load_privatekey data = None))).
Proof.
  destruct (fs_open_r (w_fs w) filename) as [data|] eqn:Hopen.
  - rewrite (read_pem_run _ _ _ Hopen). cbn.
    destruct (load_certificate data) as [c|] eqn:Hc.
    + destruct (load_privatekey data) as [k|] eqn:Hk; [discriminate|].
      intros H. inversion H; subst; clear H. split; [reflexivity|]. split.
      * exists [ev_load_certificate; ev_load_privatekey].
        split; [cbn; now rewrite <- !app_assoc|].
        intros q m. cbn. intuition discriminate.
      * right. split; [reflexivity|]. exists data. auto.
    + intros H. inversion H; subst; clear H. split; [reflexivity|]. split.
      * exists [ev_load_certificate].
        split; [cbn; now rewrite <- !app_assoc|].
        intros q m. cbn. intuition discriminate.
      * right. split; [reflexivity|]. exists data. auto.
  - rewrite (read_pem_no_file _ _ Hopen).
    intros H. inversion H; subst; clear H. split; [reflexivity|]. split.
    + exists []. split; [reflexivity|]. intros q m. cbn. intuition.
    + left. auto.
Qed.

(** X2.  A call of [generate_ca_root] that raises was either loading or
    creating.  Loading (no [overwrite], something at the root path): it
    failed reading, with [IOError] when the path does not open and the
    OpenSSL error when the content lacks a certificate or a key; the file
    system is unchanged and nothing is regenerated.  Creating: either it
    failed in OpenSSL, with no file opened, or with [IOError] at the open
    of the root file, and the file system is unchanged; or it failed with
    [IOError] in a write to the root file it had opened, and the file
    system is what that write left.  So a forced regeneration that fails
    before or at the open keeps the root that was there; one that fails
    later has already opened the root file for writing. *)
Theorem generate_ca_root_failure ca_file certname overwrite w e w' :
  generate_ca_root ca_file certname overwrite w = (Exn e, w') ->
  let p := py_default ca_file CERT_CA_FILE in
  (overwrite = false /\ path_exists (w_fs w) p = true /\
   w_fs w' = w_fs w /\
   ((e = IOError /\ fs_open_r (w_fs w) p = None) \/
    (e = crypto_Error /\
     exists data, fs_open_r (w_fs w) p = Some data /\
       (load_certificate data = None \/ load_privatekey data = None)))) \/
  ((overwrite = true \/ path_exists (w_fs w) p = false) /\
   ((w_fs w' = w_fs w /\
     ((e = crypto_Error /\
       exists evs, w_trace w' = w_trace w ++ evs /\
                   forall q m, ~ In (ev_open q m) evs) \/
      (e = IOError /\ fs_open_w (w_fs w) p = None))) \/
    (e = IOError /\
     exists fs1 cert key,
       fs_open_w (w_fs w) p = Some fs1 /\
       write_failed fs1 p cert key (w_fs w')))).
Proof.
  intros H p. unfold generate_ca_root in H. fold p in H. clearbody p.
  apply bind_inv_exn in H as [H | (found & w1 & Hfound & H)].
  { destruct overwrite; cbn in H; [discriminate|].
    unfold os_path_exists, bind, emit in H. cbn in H. discriminate. }
  assert (Hw1 : (overwrite = true /\ w1 = w /\ found = false) \/
                (overwrite = false /\ w1 = log (ev_path_exists p) w /\
                 found = path_exists (w_fs w) p)).
  { destruct overwrite; cbn in Hfound.
    - left. now inversion Hfound.
    - right. unfold os_path_exists, bind, emit in Hfound. cbn in Hfound.
      now inversion Hfound. }
  assert (Hfs1 : w_fs w1 = w_fs w)
    by (destruct Hw1 as [(_ & -> & _) | (_ & -> & _)]; reflexivity).
  assert (Ht1 : exists pre, w_trace w1 = w_trace w ++ pre /\
                            forall q m, ~ In (ev_open q m) pre).
  { destruct Hw1 as [(_ & -> & _) | (_ & -> & _)].
    - exists []. split; [now rewrite app_nil_r|]. intros q m [].
    - exists [ev_path_exists p]. split; [reflexivity|].
      intros q m [Hq|[]]. discriminate Hq. }
  destruct found.
  - (* loading *)
    destruct Hw1 as [(_ & _ & Hf) | (Hov & _ & Hex)]; [discriminate Hf|].
    apply bind_inv_exn in H as [H | ([c k] & w2 & _ & H)]; [|discriminate H].
    apply read_pem_raises in H as (Hfs & _ & Hcls).
    rewrite Hfs1 in Hfs, Hcls. left. auto.
  - (* creating *)
    assert (Hbranch : overwrite = true \/ path_exists (w_fs w) p = false)
      by (destruct Hw1 as [(-> & _) | (_ & _ & <-)]; auto).
    right. split; [exact Hbranch|].
    destruct Ht1 as (pre & Hpre & Hnopen).
    apply bind_inv_exn in H as [H | (key & w2 & Hk & H)].
    { apply generate_key_raises in H as (-> & Hfs & Ht).
      rewrite Hfs1 in Hfs. left. split; [exact Hfs|].
      left. split; [reflexivity|].
      eexists. split; [rewrite Ht, Hpre, <- app_assoc; reflexivity|].
      intros q m Hq. apply in_app_or in Hq as [Hq|[Hq|[]]];
        [exact (Hnopen q m Hq) | discriminate Hq]. }
    apply generate_key_inv in Hk as (e1 & _ & ->).
    apply bind_inv_exn in H as [H | (tmpl & wb & Htmpl & H)].
    { apply make_cert_raises in H as (-> & Hfs & Ht).
      cbn in Hfs. rewrite Hfs1 in Hfs. left. split; [exact Hfs|].
      left. split; [reflexivity|].
      eexists. split; [rewrite Ht; cbn; rewrite Hpre, <- !app_assoc; reflexivity|].
      intros q m Hq. apply in_app_or in Hq as [Hq|Hq];
        [exact (Hnopen q m Hq) | cbn in Hq; intuition discriminate]. }
    apply make_cert_inv in Htmpl as (_ & _ & Hfs & _ & _ & _ & Ht).
    cbn in Hfs, Ht. rewrite Hfs1 in Hfs.
    apply bind_inv_exn in H as [H | (c & w3 & Hsign & H)].
    { apply sign_raises in H as (-> & ->).
      left. split; [exact Hfs|]. left. split; [reflexivity|].
      eexists. split; [cbn; rewrite Ht, Hpre, <- !app_assoc; reflexivity|].
      intros q m Hq. apply in_app_or in Hq as [Hq|Hq];
        [exact (Hnopen q m Hq) | cbn in Hq; intuition discriminate]. }
    apply sign_inv in Hsign as (s & _ & -> & ->).
    apply bind_inv_exn in H as [H | ([] & w4 & _ & H)]; [|discriminate H].
    apply write_pem_raises in H
      as (-> & _ & _ & _ & [(Hopen & ->) | (fs1 & Hopen & Hbad)]);
      cbn in Hopen; rewrite Hfs in Hopen.
    + left. split; [exact Hfs|]. right. auto.
    + right. split; [reflexivity|]. eexists fs1, _, key.
      split; [exact Hopen | exact Hbad].
Qed.

(** X3.  A constructor call that raises leaves the file system, the clock
    and both generators as it found them.  It raises [IOError] when the
    root file does not open, the OpenSSL error when its content lacks a
    certificate or a key, and [OSError] when the root decodes but the
    cache directory is absent and cannot be made. *)
Theorem init_failure ca_file certs_dir w e w' :
  __init__ ca_file certs_dir w = (Exn e, w') ->
  let p := py_default ca_file CERT_CA_FILE in
  let d := py_default certs_dir CERTS_DIR in
  w_fs w' = w_fs w /\ w_clock w' = w_clock w /\
  w_random w' = w_random w /\ w_entropy w' = w_entropy w /\
  ((e = IOError /\ fs_open_r (w_fs w) p = None) \/
   (e = crypto_Error /\
    exists data, fs_open_r (w_fs w) p = Some data /\
      (load_certificate data = None \/ load_privatekey data = None)) \/
   (e = OSError /\ path_exists (w_fs w) d = false /\
    fs_mkdir (w_fs w) d = None /\
    exists data cert key, fs_open_r (w_fs w) p = Some data /\
      load_certificate data = Some cert /\ load_privatekey data = Some key)).
Proof.
  intros H p d. unfold __init__ in H. fold p d in H. clearbody p d.
  destruct (fs_open_r (w_fs w) p) as [data|] eqn:Hopen.
  2:{ rewrite (bind_exn _ _ _ _ _ (read_pem_no_file _ _ Hopen)) in H.
      inversion H; subst. repeat split. left. auto. }
  unfold bind at 1 in H. rewrite (read_pem_run _ _ _ Hopen) in H. cbn in H.
  destruct (load_certificate data) as [c|] eqn:Hc.
  2:{ inversion H; subst. repeat split. right. left.
      split; [reflexivity|]. exists data. auto. }
  destruct (load_privatekey data) as [k|] eqn:Hk.
  2:{ inversion H; subst. repeat split. right. left.
      split; [reflexivity|]. exists data. auto. }
  unfold os_path_exists, os_mkdir, bind, emit, ret in H. cbn in H.
  destruct (path_exists (w_fs w) d) eqn:Hex; cbn in H; [discriminate H|].
  destruct (fs_mkdir (w_fs w) d) as [fs'|] eqn:Hmk; cbn in H; [discriminate H|].
  inversion H; subst. repeat split. right. right.
  split; [reflexivity|]. split; [reflexivity|]. split; [reflexivity|].
  now exists data, c, k.
Qed.

(** ** Platform facts used below *)

Hypothesis bytes_app_empty_l : forall b, bytes_app bytes_empty b = b.

Hypothesis open_w_truncates : forall fs p fs',
  fs_open_w fs p = Some fs' -> fs_open_r fs' p = Some bytes_empty.

Hypothesis append_at_end : forall fs p d b,
  fs_open_r fs p = Some d -> fs_open_r (fs_append fs p b) p = Some (bytes_app d b).

Hypothesis load_privatekey_first : forall k rest,
  load_privatekey (bytes_app (dump_privatekey k) rest) = Some k.

Hypothesis load_certificate_skips_key : forall k rest,
  load_certificate (bytes_app (dump_privatekey k) rest) = load_certificate rest.

Hypothesis load_certificate_dump : forall c,
  load_certificate (dump_certificate c) = Some c.

Hypothesis sign_then_verify : forall k d m s,
  pkey_sign k d m = Some s -> pkey_verify (pkey_public k) d m s = true.

Hypothesis readable_exists : forall fs p d,
  fs_open_r fs p = Some d -> path_exists fs p = true.

(** ** What the created flag says *)

(** X4.  The flag [get_cert_for_host] returns is true exactly when the
    call was forced or nothing was at the cache path.  When it is false
    the call made one existence check and nothing else.  When it is true
    the cache file now holds a key freshly generated in this call followed
    by a certificate for that key with the host name as CN. *)
Theorem created_flag_reports_issuance self host overwrite w created path w' :
  get_cert_for_host self host overwrite w = (Val (created, path), w') ->
  created = overwrite || negb (path_exists (w_fs w) path) /\
  (created = false -> only_logged w w' [ev_path_exists path]) /\
  (created = true ->
   exists cert key,
     fs_open_r (w_fs w') path =
       Some (bytes_app (dump_privatekey key) (dump_certificate cert)) /\
     fst (pkey_generate TYPE_RSA 2048 (w_entropy w)) = Some key /\
     x_pubkey cert = Some (pkey_public key) /\
     x_subject cert = {| CN := Some host |}).
Proof.
  intros H. apply get_cert_for_host_inv in H as (_ & H). cbv zeta in H.
  destruct H as [(-> & -> & Hex & ->) | (-> & Hbranch & cert & key & G)].
  - rewrite Hex. split; [reflexivity|]. split; [|discriminate].
    intros _. repeat split.
  - split.
    { destruct Hbranch as [-> | ->]; [reflexivity | now rewrite orb_true_r]. }
    split; [discriminate|]. intros _. exists cert, key.
    pose proof (generate_host_cert_content bytes_app_empty_l open_w_truncates
                  append_at_end _ _ _ _ _ _ _ _ G) as Hc.
    apply generate_host_cert_inv in G
      as (e1 & sreq & tmpl & wa & wb & s & Hgen & _ & _ & _ & Htmpl & _ & -> & _).
    apply make_cert_inv in Htmpl as (_ & (_ & _ & Hsubj & _) & _).
    split; [exact Hc|]. split.
    + destruct overwrite; cbn in Hgen; now rewrite Hgen.
    + split; [reflexivity | exact Hsubj].
Qed.

(** ** From the root to the manager to the leaf *)

(** X5.  Right after [generate_ca_root] has returned a root, whether just
    created or loaded, the constructor given the same [ca_file] returns a
    manager that holds that same certificate and key, provided the cache
    directory exists or can be made. *)
Theorem init_holds_generated_root ca_file certname overwrite certs_dir
    w created cert key w1 :
  generate_ca_root ca_file certname overwrite w = (Val (created, cert, key), w1) ->
  path_exists (w_fs w1) (py_default certs_dir CERTS_DIR) = true \/
    is_Some (fs_mkdir (w_fs w1) (py_default certs_dir CERTS_DIR)) ->
  exists w2,
    __init__ ca_file certs_dir w1 =
      (Val {| self_ca_file := py_default ca_file CERT_CA_FILE;
              self_certs_dir := py_default certs_dir CERTS_DIR;
              self_cert := cert; self_key := key |}, w2).
Proof.
  intros H Hdir. apply generate_ca_root_inv in H. cbv zeta in H.
  destruct H as [(_ & -> & _ & Hread) | (_ & _ & H)].
  - apply read_pem_inv in Hread as (data & Hopen & Hc & Hk & Hfs & _).
    rewrite <- Hfs in Hopen.
    exact (init_returns ca_file certs_dir w1 data cert key Hopen Hc Hk Hdir).
  - destruct H as (e1 & tmpl & wb & s & _ & _ & _ & _ & Hwrite).
    pose proof (write_pem_content bytes_app_empty_l open_w_truncates
                  append_at_end _ _ _ _ _ _ Hwrite) as Hcontent.
    refine (init_returns ca_file certs_dir w1 _ cert key Hcontent _ _ Hdir).
    + now rewrite load_certificate_skips_key, load_certificate_dump.
    + apply load_privatekey_first.
Qed.

(** X6.  After [get_cert_for_host] has issued, [read_pem] of the path it
    returned gives a certificate and a key that belong together: the
    certificate's public key is the key's public half, its CN is the host
    name, its issuer the manager's root subject, and its signature
    verifies under the manager's key.  Reading changes no file. *)
Theorem cached_file_decodes_to_leaf self host overwrite w path w1 :
  get_cert_for_host self host overwrite w = (Val (true, path), w1) ->
  exists cert key w2,
    read_pem path w1 = (Val (cert, key), w2) /\
    w_fs w2 = w_fs w1 /\
    x_pubkey cert = Some (pkey_public key) /\
    x_subject cert = {| CN := Some host |} /\
    x_issuer cert = x_subject (self_cert self) /\
    X509_verify cert (pkey_public (self_key self)) = true.
Proof.
  intros H. apply get_cert_for_host_inv in H as (_ & H). cbv zeta in H.
  destruct H as [(Hf & _) | (_ & _ & cert & key & G)]; [discriminate|].
  pose proof (generate_host_cert_content bytes_app_empty_l open_w_truncates
                append_at_end _ _ _ _ _ _ _ _ G) as Hc.
  destruct (generate_host_cert_props sign_then_verify _ _ _ _ _ _ _ _ G)
    as (Hi & Hs & Hp & _ & _ & Hv).
  exists cert, key. eexists. split.
  - exact (read_pem_of_written load_privatekey_first load_certificate_skips_key
             load_certificate_dump path cert key w1 Hc).
  - repeat split; assumption.
Qed.

(** X7.  A host certificate issued with a root that [generate_ca_root]
    created passes the checks of a chain: its issuer is the root's
    subject, its signature verifies under the public key the root
    certificate carries, and the root is its own issuer with a signature
    that verifies under that same key. *)
Theorem leaf_chains_to_created_root ca_file certname overwrite w root root_key w1
    host path w2 leaf leaf_key w3 :
  generate_ca_root ca_file certname overwrite w = (Val (true, root, root_key), w1) ->
  generate_host_cert host root root_key path w2 = (Val (leaf, leaf_key), w3) ->
  exists pk,
    x_pubkey root = Some pk /\
    x_issuer root = x_subject root /\
    X509_verify root pk = true /\
    x_issuer leaf = x_subject root /\
    X509_verify leaf pk = true.
Proof.
  intros Hroot Hleaf. apply generate_ca_root_inv in Hroot. cbv zeta in Hroot.
  destruct Hroot as [(Hf & _) | (_ & _ & H)]; [discriminate|].
  destruct H as (e1 & tmpl & wb & s & _ & _ & Hs & -> & _).
  destruct (generate_host_cert_props sign_then_verify _ _ _ _ _ _ _ _ Hleaf)
    as (Hi & _ & _ & _ & _ & Hv).
  exists (pkey_public root_key).
  split; [reflexivity|]. split; [reflexivity|]. split.
  - unfold X509_verify. cbn [x_signature set_signature].
    rewrite tbs_set_signature. now apply sign_then_verify.
  - split; [exact Hi | exact Hv].
Qed.

(** ** One cache file per host name *)

(** X8.  Within one cache directory the cache path determines the host
    name: two host names get the same path only when they are the same
    string, so the paths two calls of [get_cert_for_host] on one manager
    return for different host names differ. *)
Theorem host_filename_injective :
  (forall d h1 h2, host_filename_of d h1 = host_filename_of d h2 -> h1 = h2) /\
  (forall self h1 h2 o1 o2 w1 w2 c1 c2 p1 p2 w1' w2',
     get_cert_for_host self h1 o1 w1 = (Val (c1, p1), w1') ->
     get_cert_for_host self h2 o2 w2 = (Val (c2, p2), w2') ->
     h1 <> h2 -> p1 <> p2).
Proof.
  assert (Hinj : forall d h1 h2,
            host_filename_of d h1 = host_filename_of d h2 -> h1 = h2).
  { intros d h1 h2 H. unfold host_filename_of, pem_name in H.
    cbn [str_join] in H.
    apply append_inj_l in H. apply append_inj_l in H.
    now apply append_inj_r in H. }
  split; [exact Hinj|].
  intros self h1 h2 o1 o2 w1 w2 c1 c2 p1 p2 w1' w2' H1 H2 Hne Heq.
  apply get_cert_for_host_inv in H1 as (-> & _).
  apply get_cert_for_host_inv in H2 as (-> & _).
  apply Hne. exact (Hinj _ _ _ Heq).
Qed.

(** ** Reading a PEM file *)

(** OpenSSL's PEM readers on a stream that starts with a certificate. *)
Hypothesis load_certificate_first : forall c rest,
  load_certificate (bytes_app (dump_certificate c) rest) = Some c.

Hypothesis load_privatekey_skips_cert : forall c rest,
  load_privatekey (bytes_app (dump_certificate c) rest) = load_privatekey rest.

(** X9.  [read_pem] gives both readers the whole file, so it returns the
    first certificate and the first key whichever comes first, and
    whatever follows them; it changes no file. *)
Theorem read_pem_any_order filename w cert key rest :
  fs_open_r (w_fs w) filename =
    Some (bytes_app (dump_privatekey key)
            (bytes_app (dump_certificate cert) rest)) \/
  fs_open_r (w_fs w) filename =
    Some (bytes_app (dump_certificate cert)
            (bytes_app (dump_privatekey key) rest)) ->
  exists w',
    read_pem filename w = (Val (cert, key), w') /\
    only_logged w w'
      [ev_open filename "r"; ev_load_certificate; ev_load_privatekey].
Proof.
  intros [H|H]; rewrite (read_pem_run _ _ _ H); cbn.
  - rewrite load_certificate_skips_key, load_certificate_first,
      load_privatekey_first.
    eexists. split; [reflexivity|]. repeat split. cbn.
    now rewrite <- !app_assoc.
  - rewrite load_certificate_first, load_privatekey_skips_cert,
      load_privatekey_first.
    eexists. split; [reflexivity|]. repeat split. cbn.
    now rewrite <- !app_assoc.
Qed.

(** ** What every issued certificate looks like *)

(** Time does not run backwards between two readings of the clock. *)
Hypothesis clock_monotone : forall c,
  fst (clock_time c) <= fst (clock_time (snd (clock_time c))).

(** X10.  Every certificate that [generate_host_cert] returns and every
    root that [generate_ca_root] creates has both ends of its validity
    set, notBefore strictly before notAfter, and a validity of at least
    the fixed duration. *)
Theorem validity_at_least_duration :
  (forall host root_cert root_key path w cert key w',
     generate_host_cert host root_cert root_key path w = (Val (cert, key), w') ->
     exists nb na,
       x_notBefore cert = Some nb /\ x_notAfter cert = Some na /\
       nb < na /\ CERT_DURATION <= na - nb) /\
  (forall ca_file certname overwrite w cert key w',
     generate_ca_root ca_file certname overwrite w = (Val (true, cert, key), w') ->
     exists nb na,
       x_notBefore cert = Some nb /\ x_notAfter cert = Some na /\
       nb < na /\ CERT_DURATION <= na - nb).
Proof.
  assert (Hd : 0 < CERT_DURATION) by reflexivity.
  split.
  - intros host root_cert root_key path w cert key w' H.
    apply generate_host_cert_inv in H
      as (e1 & sreq & tmpl & wa & wb & s & _ & _ & _ & _ & Htmpl & _ & -> & _).
    apply make_cert_inv in Htmpl as (_ & (_ & _ & _ & Hnb & Hna & _) & _).
    eexists _, _. split; [exact Hnb|]. split; [exact Hna|].
    pose proof (clock_monotone (w_clock wa)). lia.
  - intros ca_file certname overwrite w cert key w' H.
    apply generate_ca_root_inv in H. cbv zeta in H.
    destruct H as [(Hf & _) | (_ & _ & H)]; [discriminate|].
    destruct H as (e1 & tmpl & wb & s & _ & Htmpl & _ & -> & _).
    apply make_cert_inv in Htmpl as (_ & (_ & _ & _ & Hnb & Hna & _) & _).
    eexists _, _. split; [exact Hnb|]. split; [exact Hna|].
    match type of Hnb with
    | _ = Some (fst (clock_time ?c)) => pose proof (clock_monotone c)
    end. lia.
Qed.


(** ** Nothing is deleted *)

(** Creating, writing and making a directory remove nothing. *)
Hypothesis open_w_keeps : forall fs p fs' q,
  fs_open_w fs p = Some fs' -> path_exists fs q = true -> path_exists fs' q = true.

Hypothesis append_keeps : forall fs p b q,
  path_exists fs q = true -> path_exists (fs_append fs p b) q = true.

Hypothesis mkdir_keeps : forall fs p fs' q,
  fs_mkdir fs p = Some fs' -> path_exists fs q = true -> path_exists fs' q = true.

(** Nor does a write that fails. *)
Hypothesis write_fails_keeps : forall fs p b fs' q,
  fs_write_fails fs p b = Some fs' ->
  path_exists fs q = true -> path_exists fs' q = true.

(** What a failed write leaves keeps every path. *)
Lemma write_failed_keeps fs1 p cert key fs' q :
  write_failed fs1 p cert key fs' ->
  path_exists fs1 q = true -> path_exists fs' q = true.
Proof.
  intros [H1 | [_ H2]] Hq.
  - exact (write_fails_keeps _ _ _ _ _ H1 Hq).
  - exact (write_fails_keeps _ _ _ _ _ H2 (append_keeps _ _ _ _ Hq)).
Qed.

Lemma keeps_same_fs {A} (m : Py A) :
  (forall w r w', m w = (r, w') -> w_fs w' = w_fs w) -> keeps_paths m.
Proof. intros Hm w r w' q H Hq. now rewrite (Hm w r w' H). Qed.

Lemma keeps_bind {A B} (m : Py A) (k : A -> Py B) :
  keeps_paths m -> (forall a, keeps_paths (k a)) -> keeps_paths (bind m k).
Proof.
  intros Hm Hk w r w' q H Hq. unfold bind in H.
  destruct (m w) as [[a|e] w1] eqn:Hmw.
  - exact (Hk a w1 r w' q H (Hm w _ w1 q Hmw Hq)).
  - inversion H; subst. exact (Hm w _ w' q Hmw Hq).
Qed.

Lemma keeps_ret {A} (a : A) : keeps_paths (ret a).
Proof. apply keeps_same_fs. intros w r w' H. now inversion H. Qed.

Lemma keeps_os_path_exists p : keeps_paths (os_path_exists p).
Proof.
  apply keeps_same_fs. intros w r w' H.
  unfold os_path_exists, bind, emit in H. cbn in H. now inversion H.
Qed.

Lemma keeps_os_mkdir p : keeps_paths (os_mkdir p).
Proof.
  intros w r w' q H Hq. unfold os_mkdir, bind, emit in H. cbn in H.
  destruct (fs_mkdir (w_fs w) p) as [fs'|] eqn:Hmk; inversion H; subst; cbn.
  - exact (mkdir_keeps _ _ _ _ Hmk Hq).
  - exact Hq.
Qed.

Lemma keeps_write_pem filename cert key : keeps_paths (write_pem filename cert key).
Proof.
  intros w r w' q H Hq. destruct r as [[]|e].
  - apply write_pem_inv in H as (fs1 & Hopen & -> & _).
    apply append_keeps, append_keeps. exact (open_w_keeps _ _ _ _ Hopen Hq).
  - apply write_pem_raises in H
      as (_ & _ & _ & _ & [(_ & ->) | (fs1 & Hopen & Hbad)]).
    + exact Hq.
    + exact (write_failed_keeps _ _ _ _ _ _ Hbad (open_w_keeps _ _ _ _ Hopen Hq)).
Qed.

Lemma keeps_read_pem filename : keeps_paths (read_pem filename).
Proof.
  apply keeps_same_fs. intros w r w' H.
  destruct (fs_open_r (w_fs w) filename) as [data|] eqn:Hopen.
  - rewrite (read_pem_run _ _ _ Hopen) in H. cbn in H.
    destruct (load_certificate data); [destruct (load_privatekey data)|];
      now inversion H.
  - rewrite (read_pem_no_file _ _ Hopen) in H. now inversion H.
Qed.

Lemma keeps_generate_key t bits : keeps_paths (PKey_generate_key t bits).
Proof.
  apply keeps_same_fs. intros w [k|e] w' H.
  - now apply generate_key_inv in H as (e1 & _ & ->).
  - now apply generate_key_raises in H as (_ & Hfs & _).
Qed.

Lemma keeps_make_cert certname : keeps_paths (_make_cert certname).
Proof.
  apply keeps_same_fs. intros w [c|e] w' H.
  - now apply make_cert_inv in H as (_ & _ & Hfs & _).
  - now apply make_cert_raises in H as (_ & Hfs & _).
Qed.

Lemma keeps_sign c k d : keeps_paths (X509_sign c k d).
Proof.
  apply keeps_same_fs. intros w [c'|e] w' H.
  - now apply sign_inv in H as (s & _ & _ & ->).
  - now apply sign_raises in H as (_ & ->).
Qed.

Lemma keeps_req_sign r k d : keeps_paths (req_sign r k d).
Proof.
  apply keeps_same_fs. intros w [r'|e] w' H.
  - now apply req_sign_inv in H as (s & _ & _ & ->).
  - now apply req_sign_raises in H as (_ & ->).
Qed.

Lemma keeps_req_set_CN r v : keeps_paths (req_subject_set_CN r v).
Proof.
  apply keeps_same_fs. intros w [r'|e] w' H.
  - now apply req_set_CN_inv in H as (_ & -> & _).
  - now apply req_set_CN_raises in H as (_ & ->).
Qed.

Lemma keeps_req_get_pubkey r : keeps_paths (req_get_pubkey r).
Proof.
  apply keeps_same_fs. intros w res w' H. unfold req_get_pubkey in H.
  destruct (r_pubkey r); cbn in H; now inversion H.
Qed.

Lemma generate_host_cert_keeps host root_cert root_key path :
  keeps_paths (generate_host_cert host root_cert root_key path).
Proof.
  unfold generate_host_cert.
  apply keeps_bind; [apply keeps_generate_key | intros key].
  apply keeps_bind; [apply keeps_req_set_CN | intros req1].
  apply keeps_bind; [apply keeps_req_sign | intros req2].
  apply keeps_bind; [apply keeps_make_cert | intros tmpl].
  apply keeps_bind; [apply keeps_req_get_pubkey | intros pub].
  apply keeps_bind; [apply keeps_sign | intros cert].
  apply keeps_bind; [apply keeps_write_pem | intros _].
  apply keeps_ret.
Qed.

Lemma get_cert_for_host_keeps self host overwrite :
  keeps_paths (get_cert_for_host self host overwrite).
Proof.
  unfold get_cert_for_host.
  apply keeps_bind.
  - destruct overwrite; [apply keeps_ret | apply keeps_os_path_exists].
  - intros [|]; [apply keeps_ret|].
    apply keeps_bind; [apply generate_host_cert_keeps | intros _].
    apply keeps_ret.
Qed.

Lemma generate_ca_root_keeps ca_file certname overwrite :
  keeps_paths (generate_ca_root ca_file certname overwrite).
Proof.
  unfold generate_ca_root.
  apply keeps_bind.
  - destruct overwrite; [apply keeps_ret | apply keeps_os_path_exists].
  - intros [|].
    + apply keeps_bind; [apply keeps_read_pem | intros [c k]; apply keeps_ret].
    + apply keeps_bind; [apply keeps_generate_key | intros key].
      apply keeps_bind; [apply keeps_make_cert | intros tmpl].
      apply keeps_bind; [apply keeps_sign | intros cert].
      apply keeps_bind; [apply keeps_write_pem | intros _].
      apply keeps_ret.
Qed.

Lemma init_keeps ca_file certs_dir : keeps_paths (__init__ ca_file certs_dir).
Proof.
  unfold __init__.
  apply keeps_bind; [apply keeps_read_pem | intros [c k]].
  apply keeps_bind; [apply keeps_os_path_exists | intros found].
  apply keeps_bind; [|intros _; apply keeps_ret].
  destruct found; [apply keeps_ret | apply keeps_os_mkdir].
Qed.

(** X12.  No call of [generate_ca_root], of the constructor or of
    [get_cert_for_host] deletes anything: a path that exists before the
    call exists after it, however the call ends. *)
Theorem nothing_is_deleted q w :
  path_exists (w_fs w) q = true ->
  (forall ca_file certname overwrite r w',
     generate_ca_root ca_file certname overwrite w = (r, w') ->
     path_exists (w_fs w') q = true) /\
  (forall ca_file certs_dir r w',
     __init__ ca_file certs_dir w = (r, w') ->
     path_exists (w_fs w') q = true) /\
  (forall self host overwrite r w',
     get_cert_for_host self host overwrite w = (r, w') ->
     path_exists (w_fs w') q = true).
Proof.
  intros Hq. split; [|split].
  - intros ca_file certname overwrite r w' H.
    exact (generate_ca_root_keeps _ _ _ _ _ _ q H Hq).
  - intros ca_file certs_dir r w' H. exact (init_keeps _ _ _ _ _ q H Hq).
  - intros self host overwrite r w' H.
    exact (get_cert_for_host_keeps _ _ _ _ _ _ q H Hq).
Qed.

(** X13.  A cached host certificate outlives its root: when the cache
    file of a host exists, then after any call of [generate_ca_root], a
    forced regeneration included, [get_cert_for_host] without [overwrite]
    still returns that file as cached, after one existence check and
    without opening it, issuing or signing anything. *)
Theorem regenerated_root_keeps_cached_leaves self host w
    ca_file certname overwrite r w1 :
  let path := host_filename_of (self_certs_dir self) host in
  path_exists (w_fs w) path = true ->
  generate_ca_root ca_file certname overwrite w = (r, w1) ->
  exists w2,
    get_cert_for_host self host false w1 = (Val (false, path), w2) /\
    only_logged w1 w2 [ev_path_exists path].
Proof.
  intros path Hex Hroot.
  pose proof (generate_ca_root_keeps _ _ _ _ _ _ path Hroot Hex) as Hex1.
  rewrite (get_cert_for_host_hit self host w1 Hex1).
  eexists. split; [reflexivity|]. repeat split.
Qed.

(** ** A failed issuance *)

(** X1.  A call of [get_cert_for_host] that raises was on the issuing
    path (forced, or nothing at the cache path), and failed in one of two
    ways.  Either it failed in OpenSSL, with no file opened, or with
    [IOError] at the open of the cache file: then the file system is as
    before and the failure is not cached, the next call without
    [overwrite] that returns has issued.  Or it failed with [IOError] in a
    write to the cache file it had opened: then the file system is what
    that write left, the cache path exists, and the next call without
    [overwrite] returns it as cached, without issuing. *)
Theorem get_cert_for_host_failure self host overwrite w e w' :
  get_cert_for_host self host overwrite w = (Exn e, w') ->
  let path := host_filename_of (self_certs_dir self) host in
  (overwrite = true \/ path_exists (w_fs w) path = false) /\
  ((w_fs w' = w_fs w /\
    (exists evs,
       w_trace w' = w_trace w ++ evs /\
       (forall q, ~ In (ev_write q) evs) /\
       ((e = crypto_Error /\ forall q m, ~ In (ev_open q m) evs) \/
        (e = IOError /\ fs_open_w (w_fs w) path = None))) /\
    (overwrite = false ->
     forall created p w'',
       get_cert_for_host self host false w' = (Val (created, p), w'') ->
       created = true)) \/
   (e = IOError /\
    (exists fs1 cert key,
       fs_open_w (w_fs w) path = Some fs1 /\
       write_failed fs1 path cert key (w_fs w')) /\
    path_exists (w_fs w') path = true /\
    exists w'',
      get_cert_for_host self host false w' = (Val (false, path), w'') /\
      only_logged w' w'' [ev_path_exists path])).
Proof.
  intros H path.
  assert (Hpath : path = host_filename_of (self_certs_dir self) host)
    by reflexivity.
  clearbody path. unfold get_cert_for_host in H. rewrite <- Hpath in H.
  apply bind_inv_exn in H as [H | (found & w1 & Hfound & H)].
  { destruct overwrite; cbn in H; [discriminate|].
    unfold os_path_exists, bind, emit in H. cbn in H. discriminate. }
  assert (Hw1 : (overwrite = true /\ w1 = w /\ found = false) \/
                (overwrite = false /\ w1 = log (ev_path_exists path) w /\
                 found = path_exists (w_fs w) path)).
  { destruct overwrite; cbn in Hfound.
    - left. now inversion Hfound.
    - right. unfold os_path_exists, bind, emit in Hfound. cbn in Hfound.
      now inversion Hfound. }
  destruct found; [discriminate H|].
  apply bind_inv_exn in H as [H | ([c k] & w2 & _ & H)]; [|discriminate H].
  assert (Hfs1 : w_fs w1 = w_fs w)
    by (destruct Hw1 as [(_ & -> & _) | (_ & -> & _)]; reflexivity).
  split; [destruct Hw1 as [(-> & _) | (_ & _ & <-)]; auto|].
  apply generate_host_cert_raises in H
    as [(Hfs & evs & Ht & Hnw & Hcls) | (-> & fs1 & cert & key & Hopen & Hbad)].
  - left. rewrite Hfs1 in Hfs, Hcls. split; [exact Hfs|]. split.
    + destruct Hw1 as [(_ & -> & _) | (_ & -> & _)].
      * exists evs. auto.
      * exists (ev_path_exists path :: evs). cbn in Ht.
        split; [rewrite Ht; now rewrite <- app_assoc|].
        split.
        -- intros q [Hq|Hq]; [discriminate Hq | exact (Hnw q Hq)].
        -- destruct Hcls as [(-> & Hno) | Hio]; [left|right; exact Hio].
           split; [reflexivity|].
           intros q m [Hq|Hq]; [discriminate Hq | exact (Hno q m Hq)].
    + intros Hov created p w'' H2.
      destruct Hw1 as [(-> & _) | (_ & _ & Hex)]; [discriminate Hov|].
      apply get_cert_for_host_inv in H2 as (-> & H2). cbv zeta in H2.
      destruct H2 as [(_ & _ & Hex2 & _) | (-> & _)]; [|reflexivity].
      rewrite <- Hpath, Hfs in Hex2. congruence.
  - right. rewrite Hfs1 in Hopen. split; [reflexivity|].
    split; [now exists fs1, cert, key|].
    assert (Hex : path_exists (w_fs w') path = true).
    { apply (write_failed_keeps _ _ _ _ _ _ Hbad).
      exact (readable_exists _ _ _ (open_w_truncates _ _ _ Hopen)). }
    split; [exact Hex|].
    subst path. rewrite (get_cert_for_host_hit self host w' Hex).
    eexists. split; [reflexivity|]. repeat split.
Qed.

(** ** The command line *)


(** X14.  With a non-empty [--use-root], [main] dies of [TypeError] at the
    constructor call, which passes a keyword [certname] that [__init__]
    does not take: no file is read or written, no key generated, and the
    world is as before.  The same call without that keyword would run
    [__init__]. *)
Theorem main_use_root_type_error :
  (forall result w,
     py_truth (a_use_root result) = true ->
     main result w = (Died TypeError, w)) /\
  (forall ca_file certs_dir w,
     CertificateAuthority_call
       [("ca_file", ca_file); ("certs_dir", certs_dir)] w =
     match __init__ ca_file certs_dir w with
     | (Val ca, w') => (inr ca, w')
     | (Exn e, w') => (inl (Uncaught e), w')
     end).
Proof.
  split.
  - intros result w H. unfold main. rewrite H. reflexivity.
  - intros ca_file certs_dir w. reflexivity.
Qed.


(** ** Loading an existing root *)

(** X16.  When the root path exists and [overwrite] is not set,
    [generate_ca_root] does not look at [certname]: the outcome and the
    world after are the same for any two names, and a call that returns
    has [created = false] and returns the certificate and key decoded from
    the file, with whatever name that certificate carries. *)
Theorem loading_ignores_certname ca_file w :
  let p := py_default ca_file CERT_CA_FILE in
  path_exists (w_fs w) p = true ->
  (forall certname1 certname2,
     generate_ca_root ca_file certname1 false w =
     generate_ca_root ca_file certname2 false w) /\
  (forall certname created cert key w',
     generate_ca_root ca_file certname false w = (Val (created, cert, key), w') ->
     created = false /\
     exists data,
       fs_open_r (w_fs w) p = Some data /\
       load_certificate data = Some cert /\
       load_privatekey data = Some key).
Proof.
  intros p Hex. split.
  - intros certname1 certname2.
    now rewrite !generate_ca_root_loads by exact Hex.
  - intros certname created cert key w' H.
    apply generate_ca_root_inv in H. cbv zeta in H. fold p in H.
    destruct H as [(-> & _ & _ & Hread) | (_ & [Hf|Hno] & _)];
      [|discriminate Hf|congruence].
    split; [reflexivity|].
    apply read_pem_inv in Hread as (data & Hopen & Hc & Hk & _).
    now exists data.
Qed.

End Further.

(** ** The reference platform meets the platform facts *)

Module RefFacts.
Import Ref.

Lemma ref_bytes_app_empty_l (b : @Bytes platform) : bytes_app bytes_empty b = b.
Proof. reflexivity. Qed.

Lemma ref_open_w_truncates (fs : @FS platform) p fs' :
  fs_open_w fs p = Some fs' -> fs_open_r fs' p = Some bytes_empty.
Proof.
  cbn. unfold r_open_w, r_open_r.
  destruct (_ || _); [discriminate|].
  intros H. inversion H; subst; clear H. cbn. now rewrite String.eqb_refl.
Qed.

Lemma ref_append_at_end (fs : @FS platform) p d b :
  fs_open_r fs p = Some d -> fs_open_r (fs_append fs p b) p = Some (bytes_app d b).
Proof.
  cbn. unfold r_open_r, r_append. cbn.
  induction (files fs) as [|[q x] rest IH]; cbn; [discriminate|].
  destruct (String.eqb p q) eqn:Hpq; cbn; rewrite Hpq.
  - intros H. now inversion H.
  - exact IH.
Qed.

Lemma ref_load_privatekey_first (k : @PKey platform) rest :
  load_privatekey (bytes_app (dump_privatekey k) rest) = Some k.
Proof. now destruct k. Qed.

Lemma ref_load_certificate_skips_key (k : @PKey platform) rest :
  load_certificate (bytes_app (dump_privatekey k) rest) = load_certificate rest.
Proof. reflexivity. Qed.

Lemma ref_load_certificate_dump (c : X509 (@PubKey platform) (@Bytes platform)) :
  load_certificate (dump_certificate c) = Some c.
Proof. reflexivity. Qed.

Lemma ref_sign_then_verify (k : @PKey platform) d m s :
  pkey_sign k d m = Some s -> pkey_verify (pkey_public k) d m s = true.
Proof.
  cbn. unfold r_sign, r_verify.
  destruct (String.eqb d "sha1"); [|discriminate].
  intros H. inversion H; subst; clear H.
  now rewrite !Z.eqb_refl.
Qed.

Lemma ref_readable_exists (fs : @FS platform) p d :
  fs_open_r fs p = Some d -> path_exists fs p = true.
Proof.
  cbn. unfold r_open_r, r_path_exists. now intros ->.
Qed.

Lemma ref_generated_bits t bits (e : @Entropy platform) k e' :
  pkey_generate t bits e = (Some k, e') -> pkey_bits k = bits.
Proof.
  cbn. unfold r_generate. destruct (Z.ltb e 0); [discriminate|].
  intros H. now inversion H.
Qed.

Lemma ref_randint_in_range lo hi (s : @RandState platform) :
  lo <= hi -> lo <= fst (randint lo hi s) <= hi.
Proof.
  cbn. unfold r_randint. destruct s as [|x s0]; cbn; lia.
Qed.

Lemma ref_mkdir_exists (fs : @FS platform) p fs' :
  fs_mkdir fs p = Some fs' -> path_exists fs' p = true.
Proof.
  cbn. unfold r_mkdir. destruct (_ || _); [discriminate|].
  intros H. inversion H; subst; clear H.
  unfold r_path_exists, r_is_dir. cbn. rewrite String.eqb_refl.
  now destruct (r_lookup p (files fs)).
Qed.

Lemma ref_load_certificate_first
    (c : X509 (@PubKey platform) (@Bytes platform)) rest :
  load_certificate (bytes_app (dump_certificate c) rest) = Some c.
Proof. reflexivity. Qed.

Lemma ref_load_privatekey_skips_cert
    (c : X509 (@PubKey platform) (@Bytes platform)) rest :
  load_privatekey (bytes_app (dump_certificate c) rest) = load_privatekey rest.
Proof. reflexivity. Qed.

Lemma ref_clock_monotone (c : @Clock platform) :
  fst (clock_time c) <= fst (clock_time (snd (clock_time c))).
Proof. cbn. lia. Qed.

Lemma r_lookup_remove p q l :
  String.eqb q p = false -> r_lookup q (r_remove p l) = r_lookup q l.
Proof.
  intros Hne. induction l as [|[k d] l IH]; cbn; [reflexivity|].
  destruct (String.eqb p k) eqn:Hpk.
  - apply String.eqb_eq in Hpk. subst k. now rewrite Hne.
  - cbn. now rewrite IH.
Qed.

Lemma r_lookup_alter f p q l :
  is_Some (r_lookup q l) -> is_Some (r_lookup q (r_alter f p l)).
Proof.
  induction l as [|[k d] l IH]; cbn; [trivial|].
  destruct (String.eqb p k) eqn:Hpk; cbn.
  - destruct (String.eqb q k); eauto.
  - destruct (String.eqb q k); eauto.
Qed.

Lemma r_path_exists_lookup (fs fs' : RFS) q :
  dirs fs' = dirs fs ->
  (is_Some (r_lookup q (files fs)) -> is_Some (r_lookup q (files fs'))) ->
  r_path_exists fs q = true -> r_path_exists fs' q = true.
Proof.
  unfold r_path_exists, r_is_dir. intros Hd Hf.
  destruct (r_lookup q (files fs)) as [d|].
  - intros _. destruct Hf as [d' ->]; eauto.
  - intros H. rewrite Hd. now destruct (r_lookup q (files fs')).
Qed.

Lemma ref_open_w_keeps (fs : @FS platform) p fs' q :
  fs_open_w fs p = Some fs' -> path_exists fs q = true -> path_exists fs' q = true.
Proof.
  cbn. unfold r_open_w. destruct (_ || _); [discriminate|].
  intros H. inversion H; subst; clear H.
  apply r_path_exists_lookup; [reflexivity|]. cbn.
  destruct (String.eqb q p) eqn:Hqp; [eauto|].
  now rewrite r_lookup_remove.
Qed.

Lemma ref_append_keeps (fs : @FS platform) p b q :
  path_exists fs q = true -> path_exists (fs_append fs p b) q = true.
Proof.
  cbn. unfold r_append.
  apply r_path_exists_lookup; [reflexivity|]. cbn. apply r_lookup_alter.
Qed.

Lemma ref_mkdir_keeps (fs : @FS platform) p fs' q :
  fs_mkdir fs p = Some fs' -> path_exists fs q = true -> path_exists fs' q = true.
Proof.
  cbn. unfold r_mkdir. destruct (_ || _); [discriminate|].
  intros H. inversion H; subst; clear H.
  unfold r_path_exists, r_is_dir. cbn.
  destruct (r_lookup q (files fs)); [trivial|].
  intros ->. apply orb_true_r.
Qed.

Lemma ref_write_fails_keeps (fs : @FS platform) p b fs' q :
  fs_write_fails fs p b = Some fs' ->
  path_exists fs q = true -> path_exists fs' q = true.
Proof.
  cbn. unfold r_write_fails. destruct (disk_full fs); [|discriminate].
  intros H. now inversion H.
Qed.

Lemma ref_generated_keys_differ t1 bits1 t2 bits2
    (e : @Entropy platform) k1 e1 k2 e2 :
  pkey_generate t1 bits1 e = (Some k1, e1) ->
  pkey_generate t2 bits2 e1 = (Some k2, e2) ->
  pkey_public k1 <> pkey_public k2.
Proof.
  cbn. unfold r_generate.
  destruct (Z.ltb e 0); [discriminate|]. intros H1.
  destruct (Z.ltb e1 0); [discriminate|]. intros H2.
  inversion H1; subst. inversion H2; subst. cbn. lia.
Qed.

End RefFacts.

(** ** The guarantees at work on the reference platform *)

Module Witness.
Import Ref RefFacts.


(** C2 on the sample manager: the first call for 'a.test' issues, the
    second finds the file and changes nothing. *)
Lemma get_cert_for_host_idempotent_witness :
  exists created path w1 w2,
    @get_cert_for_host platform ca "a.test" false w_ready
      = (Val (created, path), w1) /\
    get_cert_for_host ca "a.test" false w1 = (Val (false, path), w2) /\
    only_logged w1 w2 [ev_path_exists path] /\
    fs_open_r (w_fs w2) path = fs_open_r (w_fs w1) path.
Proof.
  destruct (@get_cert_for_host platform ca "a.test" false w_ready)
    as [[[created path]|e] w1] eqn:Hrun.
  - destruct (@get_cert_for_host_idempotent platform ref_bytes_app_empty_l
                ref_open_w_truncates ref_append_at_end ref_readable_exists
                ca "a.test" w_ready created path w1 Hrun)
      as (w2 & H2 & _ & Hlog & Hsame & _).
    exists created, path, w1, w2. repeat split; try assumption; apply Hlog.
  - vm_compute in Hrun. discriminate Hrun.
Defined.

(** C3 where nothing is on disk: the root is created at 'ca.pem' with the
    name 'Test CA', then loaded from there. *)
Lemma generate_ca_root_loads_or_creates_witness :
  exists created cert key w1 w2,
    @generate_ca_root platform (Some "ca.pem") (Some "Test CA") false w_fresh
      = (Val (created, cert, key), w1) /\
    created = true /\ pkey_bits key = 2048 /\
    x_issuer cert = x_subject cert /\
    x_subject cert = {| CN := Some "Test CA" |} /\
    X509_verify cert (pkey_public key) = true /\
    fs_open_r (w_fs w1) "ca.pem" =
      Some (bytes_app (dump_privatekey key) (dump_certificate cert)) /\
    w_trace w1 =
      [ev_path_exists "ca.pem"; ev_generate_key TYPE_RSA 2048;
       ev_randint 0 (2 ^ 64 - 1); ev_sign "sha1"; ev_open "ca.pem" "wb+";
       ev_write "ca.pem"; ev_write "ca.pem"] /\
    generate_ca_root (Some "ca.pem") (Some "Test CA") false w1
      = (Val (false, cert, key), w2).
Proof.
  destruct (@generate_ca_root platform (Some "ca.pem") (Some "Test CA") false
              w_fresh) as [[[[created cert] key]|e] w1] eqn:Hrun.
  - assert (Hp : "ca.pem" <> "") by discriminate.
    assert (Hn : "Test CA" <> "") by discriminate.
    destruct (@generate_ca_root_loads_or_creates platform
                ref_bytes_app_empty_l ref_open_w_truncates ref_append_at_end
                ref_load_privatekey_first ref_load_certificate_skips_key
                ref_load_certificate_dump ref_sign_then_verify
                ref_readable_exists ref_generated_bits
                "ca.pem" "Test CA" w_fresh Hp Hn) as [_ Hcreate].
    destruct (Hcreate false (or_intror eq_refl)) as [Hprops _].
    destruct (Hprops created cert key w1 Hrun)
      as (Hc & _ & Hbits & Hiss & Hsubj & _ & _ & Hv & Ht & Hfile & w2 & H2 & _).
    exists created, cert, key, w1, w2. repeat split; assumption.
  - vm_compute in Hrun. discriminate Hrun.
Defined.

(** C4 on the sample root: written, then read back. *)
Lemma pem_round_trip_witness :
  exists w1 w2,
    @write_pem platform "ca.pem" root_cert root_key w_fresh = (Val tt, w1) /\
    fs_open_r (w_fs w1) "ca.pem" =
      Some (bytes_app (dump_privatekey root_key) (dump_certificate root_cert)) /\
    read_pem "ca.pem" w1 = (Val (root_cert, root_key), w2).
Proof.
  destruct (@write_pem platform "ca.pem" root_cert root_key w_fresh)
    as [[[]|e] w1] eqn:Hrun.
  - destruct (@pem_round_trip platform ref_bytes_app_empty_l
                ref_open_w_truncates ref_append_at_end
                ref_load_privatekey_first ref_load_certificate_skips_key
                ref_load_certificate_dump
                "ca.pem" root_cert root_key w_fresh tt w1 Hrun)
      as (Hcontent & Hread).
    destruct (Hread w1 eq_refl) as (w2 & H2 & _).
    exists w1, w2. repeat split; assumption.
  - vm_compute in Hrun. discriminate Hrun.
Defined.

(** C5 for the name 'a.test': the version field holds 3, which is no
    X.509 version; the other fields are as claimed. *)
Lemma make_cert_template_witness :
  CERT_DURATION = 100 * 365 * 24 * 60 * 60 /\
  exists cert w',
    @_make_cert platform "a.test" w_fresh = (Val cert, w') /\
    x_version cert = 3 /\ version_of_field (x_version cert) = None /\
    version_of_field 2 = Some X509_v3 /\
    x_serial cert = 5 /\ 0 <= x_serial cert < 2 ^ 64 /\
    x_subject cert = {| CN := Some "a.test" |} /\
    x_notBefore cert = Some 1000 /\
    x_notAfter cert = Some (1001 + CERT_DURATION).
Proof.
  split; [reflexivity|].
  destruct (@_make_cert platform "a.test" w_fresh) as [[cert|e] w'] eqn:Hrun.
  - destruct (@make_cert_template platform ref_randint_in_range)
      as (_ & Hv3 & Htmpl & _).
    destruct (Htmpl "a.test" w_fresh cert w' Hrun)
      as (Hv & Hnone & (_ & Hs & Hsubj & Hnb & Hna & _) & Hrange).
    exists cert, w'. repeat split; try assumption; apply Hrange.
  - vm_compute in Hrun. discriminate Hrun.
Defined.

(** C5 as claimed fails for 'a.test': the certificate [_make_cert]
    returns has 3 in its version field, and is not of X.509 version 3. *)
Lemma make_cert_is_not_v3 :
  exists cert w',
    @_make_cert platform "a.test" w_fresh = (Val cert, w') /\
    x_version cert = 3 /\
    version_of_field (x_version cert) <> Some X509_v3.
Proof.
  eexists _, _. split; [vm_compute; reflexivity|].
  split; [reflexivity | discriminate].
Qed.

(** C6 where the root file is there and the cache directory is not. *)
Lemma init_reads_root_witness :
  exists self w',
    @__init__ platform (Some "ca.pem") (Some "certs") w_root = (Val self, w') /\
    self_cert self = root_cert /\ self_key self = root_key /\
    path_exists (w_fs w') "certs" = true /\
    w_trace w' =
      [ev_open "ca.pem" "r"; ev_load_certificate; ev_load_privatekey;
       ev_path_exists "certs"; ev_mkdir "certs"].
Proof.
  destruct (@__init__ platform (Some "ca.pem") (Some "certs") w_root)
    as [[self|e] w'] eqn:Hrun.
  - destruct (@init_reads_root platform ref_readable_exists ref_mkdir_exists
                (Some "ca.pem") (Some "certs") w_root) as (_ & Hret & _).
    destruct (Hret self w' Hrun)
      as (_ & _ & (data & Hopen & Hc & Hk) & Hdir & _ & _ & _ & _ & Ht).
    exists self, w'. split; [reflexivity|].
    vm_compute in Hopen. inversion Hopen; subst data; clear Hopen.
    vm_compute in Hc. inversion Hc as [Hc'].
    vm_compute in Hk. inversion Hk as [Hk'].
    split; [symmetry; exact Hc'|]. split; [symmetry; exact Hk'|].
    split; [exact Hdir | exact Ht].
  - vm_compute in Hrun. discriminate Hrun.
Defined.

(** C6 as claimed fails where no root file exists: the constructor raises
    and the disk stays empty. *)
Lemma init_does_not_create_root :
  let r := @__init__ platform (Some "ca.pem") (Some "certs") w_fresh in
  path_exists (w_fs w_fresh) "ca.pem" = false /\
  fst r = Exn IOError /\
  w_fs (snd r) = empty_fs.
Proof. vm_compute. repeat split. Qed.

(** C7 on the truncated root file: the error is raised and the world is
    as before, the trace apart. *)
Lemma generate_ca_root_malformed_witness :
  exists w',
    @generate_ca_root platform (Some "ca.pem") (Some "Test CA") false w_truncated
      = (Exn crypto_Error, w') /\
    w_fs w' = w_fs w_truncated /\
    w_random w' = w_random w_truncated /\
    w_entropy w' = w_entropy w_truncated.
Proof.
  destruct (@generate_ca_root_malformed platform (Some "ca.pem") (Some "Test CA")
              w_truncated [KeyBlock 11 2048] eq_refl eq_refl (or_introl eq_refl))
    as (w' & evs & Hrun & Hlog & _).
  exists w'. split; [exact Hrun|].
  destruct Hlog as (Hfs & _ & Hr & He & _). auto.
Defined.

(** C8 on the sample manager: two forced issuances for 'a.test' draw the
    serials 7 and 9 and two different keys, under the same root. *)
Lemma get_cert_for_host_overwrite_twice_witness :
  exists w1 w2 cert1 key1 cert2 key2,
    @get_cert_for_host platform ca "a.test" true w_ready
      = (Val (true, "certs/a.test.pem"), w1) /\
    get_cert_for_host ca "a.test" true w1
      = (Val (true, "certs/a.test.pem"), w2) /\
    fs_open_r (w_fs w1) "certs/a.test.pem" =
      Some (bytes_app (dump_privatekey key1) (dump_certificate cert1)) /\
    fs_open_r (w_fs w2) "certs/a.test.pem" =
      Some (bytes_app (dump_privatekey key2) (dump_certificate cert2)) /\
    x_serial cert1 = 7 /\ x_serial cert2 = 9 /\
    key1 <> key2 /\ x_pubkey cert1 <> x_pubkey cert2 /\
    x_issuer cert1 = x_subject root_cert /\
    x_issuer cert2 = x_subject root_cert /\
    X509_verify cert1 (pkey_public root_key) = true /\
    X509_verify cert2 (pkey_public root_key) = true.
Proof.
  assert (Hruns : exists w1 w2,
    @get_cert_for_host platform ca "a.test" true w_ready
      = (Val (true, "certs/a.test.pem"), w1) /\
    get_cert_for_host ca "a.test" true w1
      = (Val (true, "certs/a.test.pem"), w2)).
  { eexists _, _. split; vm_compute; reflexivity. }
  destruct Hruns as (w1 & w2 & H1 & H2).
  destruct (@get_cert_for_host_overwrite_twice platform ref_bytes_app_empty_l
              ref_open_w_truncates ref_append_at_end ref_sign_then_verify
              ref_generated_keys_differ
              ca "a.test" w_ready _ w1 _ w2 H1 H2)
    as (_ & _ & cert1 & key1 & e1 & cert2 & key2 & e2 &
        Hc1 & Hc2 & Hs1 & Hs2 & _ & _ & _ & Hk & _ & _ & Hpk &
        Hi1 & Hi2 & Hv1 & Hv2).
  exists w1, w2, cert1, key1, cert2, key2.
  repeat split; assumption.
Defined.

(** C8 as claimed fails when [random] repeats a value: two forced
    issuances then leave certificates with the same serial number, 7,
    while their keys differ. *)
Lemma overwrite_twice_may_repeat :
  exists w1 w2 cert1 cert2,
    @get_cert_for_host platform ca "a.test" true w_repeat
      = (Val (true, "certs/a.test.pem"), w1) /\
    get_cert_for_host ca "a.test" true w1
      = (Val (true, "certs/a.test.pem"), w2) /\
    fs_open_r (w_fs w1) "certs/a.test.pem" =
      Some (bytes_app (dump_privatekey host_key1) (dump_certificate cert1)) /\
    fs_open_r (w_fs w2) "certs/a.test.pem" =
      Some (bytes_app (dump_privatekey host_key2) (dump_certificate cert2)) /\
    host_key1 <> host_key2 /\
    x_serial cert1 = 7 /\ x_serial cert2 = 7 /\
    ~ x_serial cert1 <> x_serial cert2.
Proof.
  eexists _, _, _, _.
  split; [vm_compute; reflexivity|].
  split; [vm_compute; reflexivity|].
  split; [reflexivity|].
  split; [reflexivity|].
  split; [discriminate|].
  split; [reflexivity|].
  split; [reflexivity|].
  intros H. now apply H.
Qed.



(** C10 where the root is at './pywb-ca.pem': the constructor given an
    empty [ca_file] and no [certs_dir] reads that file and makes
    './pywb-certs/'; and on an empty disk [generate_ca_root] given no
    [ca_file] and an empty [certname] writes the root there, under the
    default name. *)
Lemma falsy_arguments_take_defaults_witness :
  (exists self w',
     @__init__ platform (Some "") None w_default = (Val self, w') /\
     self_ca_file self = "./pywb-ca.pem" /\
     self_certs_dir self = "./pywb-certs/" /\
     self_cert self = root_cert /\ self_key self = root_key /\
     path_exists (w_fs w') "./pywb-certs/" = true) /\
  (exists cert key w',
     @generate_ca_root platform None (Some "") false w_fresh
       = (Val (true, cert, key), w') /\
     fs_open_r (w_fs w') "./pywb-ca.pem" =
       Some (bytes_app (dump_privatekey key) (dump_certificate cert)) /\
     x_subject cert = {| CN := Some "pywb https proxy replay CA" |}).
Proof.
  pose proof (@falsy_arguments_take_defaults platform ref_bytes_app_empty_l
                ref_open_w_truncates ref_append_at_end ref_mkdir_exists
                (Some "") eq_refl) as (_ & _ & _ & _ & Hca & _ & _ & Hname).
  pose proof (@falsy_arguments_take_defaults platform ref_bytes_app_empty_l
                ref_open_w_truncates ref_append_at_end ref_mkdir_exists
                None eq_refl) as (_ & _ & _ & _ & _ & Hdir & Hfile & _).
  split.
  - destruct (@__init__ platform (Some "") None w_default)
      as [[self|e] w'] eqn:Hrun; [|vm_compute in Hrun; discriminate Hrun].
    destruct (Hca None w_default) as (_ & _ & Hret & _).
    destruct (Hret self w' Hrun) as (Hp & data & Hopen & Hc & Hk).
    destruct (Hdir (Some "") w_default) as (_ & Hd).
    destruct (Hd self w' Hrun) as (Hd1 & Hd2 & _).
    exists self, w'. split; [reflexivity|].
    vm_compute in Hopen. inversion Hopen; subst data; clear Hopen.
    vm_compute in Hc. inversion Hc as [Hc'].
    vm_compute in Hk. inversion Hk as [Hk'].
    repeat split; try assumption; symmetry; assumption.
  - destruct (@generate_ca_root platform None (Some "") false w_fresh)
      as [[[[created cert] key]|e] w'] eqn:Hrun;
      [|vm_compute in Hrun; discriminate Hrun].
    assert (Hcr : created = true)
      by (vm_compute in Hrun; now inversion Hrun).
    subst created.
    destruct (Hfile (Some "") false w_fresh) as (_ & Hf).
    destruct (Hname None false w_fresh) as (_ & Hn).
    exists cert, key, w'. split; [reflexivity|]. split.
    + exact (Hf true cert key w' Hrun).
    + exact (Hn cert key w' Hrun).
Defined.

End Witness.

(** ** The further properties at work on the reference platform *)

Module MoreWitness.
Import Ref RefFacts.

(** X1 on a full disk: the cache file for 'a.test' is created, the
    write fails, and the next call returns the empty file as cached. *)
Lemma get_cert_for_host_failure_witness :
  exists w' w'',
    @get_cert_for_host platform ca "a.test" false w_full = (Exn IOError, w') /\
    fs_open_r (w_fs w_full) "certs/a.test.pem" = None /\
    fs_open_r (w_fs w') "certs/a.test.pem" = Some bytes_empty /\
    get_cert_for_host ca "a.test" false w'
      = (Val (false, "certs/a.test.pem"), w'').
Proof.
  destruct (@get_cert_for_host platform ca "a.test" false w_full)
    as [r w'] eqn:Hrun.
  assert (Hr : r = Exn IOError /\
               fs_open_r (w_fs w') "certs/a.test.pem" = Some bytes_empty).
  { vm_compute in Hrun. inversion Hrun; subst. split; reflexivity. }
  destruct Hr as (-> & Hfile).
  destruct (@get_cert_for_host_failure platform ref_open_w_truncates
              ref_readable_exists ref_append_keeps ref_write_fails_keeps
              ca "a.test" false w_full IOError w' Hrun)
    as (_ & [(Hsame & _) | (_ & _ & _ & w'' & Hnext & _)]).
  - rewrite Hsame in Hfile. vm_compute in Hfile. discriminate Hfile.
  - exists w', w''. repeat split; assumption.
Defined.

(** X2 on a full disk: a forced regeneration opens the root file, fails
    writing and leaves it empty; the root that was there is gone. *)
Lemma generate_ca_root_failure_witness :
  exists w' fs1 cert key,
    @generate_ca_root platform (Some "ca.pem") (Some "Test CA") true w_full
      = (Exn IOError, w') /\
    fs_open_w (w_fs w_full) "ca.pem" = Some fs1 /\
    write_failed fs1 "ca.pem" cert key (w_fs w') /\
    fs_open_r (w_fs w_full) "ca.pem" =
      Some (bytes_app (dump_privatekey root_key) (dump_certificate root_cert)) /\
    fs_open_r (w_fs w') "ca.pem" = Some bytes_empty.
Proof.
  destruct (@generate_ca_root platform (Some "ca.pem") (Some "Test CA") true
              w_full) as [r w'] eqn:Hrun.
  assert (Hr : r = Exn IOError /\
               fs_open_r (w_fs w') "ca.pem" = Some bytes_empty).
  { vm_compute in Hrun. inversion Hrun; subst. split; reflexivity. }
  destruct Hr as (-> & Hfile).
  destruct (@generate_ca_root_failure platform (Some "ca.pem")
              (Some "Test CA") true w_full IOError w' Hrun)
    as [(Hov & _) | (_ & [(Hsame & _) | (_ & fs1 & cert & key & Hopen & Hbad)])].
  - discriminate Hov.
  - rewrite Hsame in Hfile. vm_compute in Hfile. discriminate Hfile.
  - exists w', fs1, cert, key. repeat split; assumption.
Defined.

(** X3 on the truncated root file. *)
Lemma init_failure_witness :
  exists w',
    @__init__ platform (Some "ca.pem") (Some "certs") w_truncated
      = (Exn crypto_Error, w') /\
    w_fs w' = w_fs w_truncated.
Proof.
  assert (Hrun : exists w',
    @__init__ platform (Some "ca.pem") (Some "certs") w_truncated
      = (Exn crypto_Error, w'))
    by (eexists; vm_compute; reflexivity).
  destruct Hrun as (w' & Hrun). exists w'. split; [exact Hrun|].
  exact (proj1 (@init_failure platform (Some "ca.pem") (Some "certs")
                  w_truncated crypto_Error w' Hrun)).
Defined.

(** X4 on the sample manager, nothing cached. *)
Lemma created_flag_reports_issuance_witness :
  exists created path w',
    @get_cert_for_host platform ca "a.test" false w_ready
      = (Val (created, path), w') /\
    created = false || negb (path_exists (w_fs w_ready) path).
Proof.
  destruct (@get_cert_for_host platform ca "a.test" false w_ready)
    as [[[created path]|e] w'] eqn:Hrun.
  - exists created, path, w'. split; [reflexivity|].
    exact (proj1 (@created_flag_reports_issuance platform
                    ref_bytes_app_empty_l ref_open_w_truncates
                    ref_append_at_end ca "a.test" false w_ready created path
                    w' Hrun)).
  - vm_compute in Hrun. discriminate Hrun.
Defined.

(** X5 where nothing is on disk: the root is created, the constructor
    then holds it. *)
Lemma init_holds_generated_root_witness :
  exists cert key w1 self w2,
    @generate_ca_root platform (Some "ca.pem") (Some "Test CA") false w_fresh
      = (Val (true, cert, key), w1) /\
    __init__ (Some "ca.pem") (Some "certs") w1 = (Val self, w2) /\
    self_cert self = cert /\ self_key self = key.
Proof.
  assert (Hrun : exists cert key w1,
    @generate_ca_root platform (Some "ca.pem") (Some "Test CA") false w_fresh
      = (Val (true, cert, key), w1) /\
    is_Some (fs_mkdir (w_fs w1) "certs")).
  { eexists _, _, _. split; [vm_compute; reflexivity|].
    vm_compute. eexists. reflexivity. }
  destruct Hrun as (cert & key & w1 & Hrun & Hdir).
  destruct (@init_holds_generated_root platform ref_bytes_app_empty_l
              ref_open_w_truncates ref_append_at_end ref_load_privatekey_first
              ref_load_certificate_skips_key ref_load_certificate_dump
              (Some "ca.pem") (Some "Test CA") false (Some "certs")
              w_fresh true cert key w1 Hrun (or_intror Hdir)) as (w2 & H2).
  exists cert, key, w1. eexists _, w2. split; [exact Hrun|].
  split; [exact H2|]. split; reflexivity.
Defined.

(** X6 for a forced issuance on the sample manager. *)
Lemma cached_file_decodes_to_leaf_witness :
  exists path w1 cert key w2,
    @get_cert_for_host platform ca "a.test" true w_ready
      = (Val (true, path), w1) /\
    read_pem path w1 = (Val (cert, key), w2) /\
    x_pubkey cert = Some (pkey_public key) /\
    x_subject cert = {| CN := Some "a.test" |}.
Proof.
  assert (Hrun : exists path w1,
    @get_cert_for_host platform ca "a.test" true w_ready
      = (Val (true, path), w1))
    by (eexists _, _; vm_compute; reflexivity).
  destruct Hrun as (path & w1 & Hrun).
  destruct (@cached_file_decodes_to_leaf platform ref_bytes_app_empty_l
              ref_open_w_truncates ref_append_at_end ref_load_privatekey_first
              ref_load_certificate_skips_key ref_load_certificate_dump
              ref_sign_then_verify ca "a.test" true w_ready path w1 Hrun)
    as (cert & key & w2 & Hread & _ & Hp & Hs & _).
  exists path, w1, cert, key, w2. auto.
Defined.

(** X7: a root created on an empty disk, then a leaf issued with it. *)
Lemma leaf_chains_to_created_root_witness :
  exists root root_key w1 leaf leaf_key w3 pk,
    @generate_ca_root platform (Some "ca.pem") (Some "Test CA") false w_fresh
      = (Val (true, root, root_key), w1) /\
    generate_host_cert "a.test" root root_key "a.test.pem" w1
      = (Val (leaf, leaf_key), w3) /\
    x_pubkey root = Some pk /\
    X509_verify root pk = true /\ X509_verify leaf pk = true /\
    x_issuer leaf = x_subject root.
Proof.
  assert (Hrun : exists root root_key w1 leaf leaf_key w3,
    @generate_ca_root platform (Some "ca.pem") (Some "Test CA") false w_fresh
      = (Val (true, root, root_key), w1) /\
    generate_host_cert "a.test" root root_key "a.test.pem" w1
      = (Val (leaf, leaf_key), w3)).
  { eexists _, _, _, _, _, _. split; vm_compute; reflexivity. }
  destruct Hrun as (root & rk & w1 & leaf & lk & w3 & H1 & H2).
  destruct (@leaf_chains_to_created_root platform ref_sign_then_verify
              (Some "ca.pem") (Some "Test CA") false w_fresh root rk w1
              "a.test" "a.test.pem" w1 leaf lk w3 H1 H2)
    as (pk & Hpk & _ & Hvr & Hi & Hvl).
  exists root, rk, w1, leaf, lk, w3, pk. repeat split; assumption.
Defined.

(** X8 for two host names. *)
Lemma host_filename_injective_witness :
  host_filename_of "certs" "a.test" <> host_filename_of "certs" "b.test".
Proof.
  intros H.
  pose proof (proj1 (@host_filename_injective platform) _ _ _ H) as Heq.
  discriminate Heq.
Defined.

(** X9 on the hand-made file with the certificate first. *)
Lemma read_pem_any_order_witness :
  exists w',
    @read_pem platform "rev.pem" w_cert_first = (Val (root_cert, root_key), w').
Proof.
  destruct (@read_pem_any_order platform ref_load_privatekey_first
              ref_load_certificate_skips_key ref_load_certificate_first
              ref_load_privatekey_skips_cert "rev.pem" w_cert_first
              root_cert root_key [Raw 0] (or_intror eq_refl))
    as (w' & Hrun & _).
  exists w'. exact Hrun.
Defined.

(** X10 for a leaf issued on the sample root. *)
Lemma validity_at_least_duration_witness :
  exists cert key w' nb na,
    @generate_host_cert platform "a.test" root_cert root_key
      "certs/a.test.pem" w_ready = (Val (cert, key), w') /\
    x_notBefore cert = Some nb /\ x_notAfter cert = Some na /\
    nb < na /\ CERT_DURATION <= na - nb.
Proof.
  destruct (@generate_host_cert platform "a.test" root_cert root_key
              "certs/a.test.pem" w_ready) as [[[cert key]|e] w'] eqn:Hrun.
  - destruct (proj1 (@validity_at_least_duration platform ref_clock_monotone)
                _ _ _ _ _ _ _ _ Hrun) as (nb & na & H).
    exists cert, key, w', nb, na. split; [reflexivity | exact H].
  - vm_compute in Hrun. discriminate Hrun.
Defined.


(** X12: the root file is still there after a forced issuance. *)
Lemma nothing_is_deleted_witness :
  exists r w',
    @get_cert_for_host platform ca "a.test" true w_ready = (r, w') /\
    path_exists (w_fs w') "ca.pem" = true.
Proof.
  destruct (@get_cert_for_host platform ca "a.test" true w_ready)
    as [r w'] eqn:Hrun.
  exists r, w'. split; [reflexivity|].
  destruct (@nothing_is_deleted platform ref_open_w_keeps ref_append_keeps
              ref_mkdir_keeps ref_write_fails_keeps "ca.pem" w_ready eq_refl)
    as (_ & _ & Hget).
  exact (Hget ca "a.test" true r w' Hrun).
Defined.

(** X13: the root is regenerated by force, the file cached for 'a.test'
    is still served. *)
Lemma regenerated_root_keeps_cached_leaves_witness :
  exists r w1 w2,
    @generate_ca_root platform (Some "ca.pem") (Some "New CA") true w_cached
      = (r, w1) /\
    get_cert_for_host ca "a.test" false w1
      = (Val (false, "certs/a.test.pem"), w2).
Proof.
  destruct (@generate_ca_root platform (Some "ca.pem") (Some "New CA") true
              w_cached) as [r w1] eqn:Hrun.
  destruct (@regenerated_root_keeps_cached_leaves platform ref_open_w_keeps
              ref_append_keeps ref_write_fails_keeps
              ca "a.test" w_cached (Some "ca.pem")
              (Some "New CA") true r w1 eq_refl Hrun) as (w2 & H2 & _).
  exists r, w1, w2. split; [reflexivity | exact H2].
Defined.

(** X14 for the command line [a.test -r ca.pem -d certs]. *)
Lemma main_use_root_type_error_witness :
  @main platform args_host w_ready = (Died TypeError, w_ready).
Proof.
  exact (proj1 (@main_use_root_type_error platform) args_host w_ready eq_refl).
Defined.


(** X16 on the sample root file. *)
Lemma loading_ignores_certname_witness :
  @generate_ca_root platform (Some "ca.pem") (Some "Other CA") false w_root =
  generate_ca_root (Some "ca.pem") None false w_root.
Proof.
  exact (proj1 (@loading_ignores_certname platform (Some "ca.pem") w_root
                  eq_refl) (Some "Other CA") None).
Defined.

End MoreWitness.
